(** * TaPy grating interferometer: the correction pipeline, the harmonic
      reduction and the derived interferometry maps

    Shallow embedding of [tapy/grating_interferometer.py].

    - numpy's float64 scalars are idealised as extended reals ([xreal]):
      exact real arithmetic on finite values, together with the IEEE
      special values [+inf], [-inf] and [nan] and their propagation rules
      (no rounding, no signed zero).
    - numpy arrays are nested lists in row-major order ([ndarray]).
    - the [GratingInterferometer] instance is a record; every method is a
      computation in a state-and-exception monad, so that the state left
      behind by a raised exception is observable. *)

From Stdlib Require Import String Ascii.
From Stdlib Require Import List ZArith Bool Arith Lia.
From Stdlib Require Import Reals Lra.
Import ListNotations.

Set Implicit Arguments.

(* ================================================================== *)
(** * Extended reals: the numeric carrier *)
(* ================================================================== *)

Module XReal.

Local Open Scope R_scope.

Inductive xreal : Type :=
| Fin (r : R)
| PInf
| NInf
| NaN.

(** Sign of a real, as needed by the IEEE rules for infinities. *)
Inductive sign := Neg | Zero | Pos.

Definition Rsign (r : R) : sign :=
  if Req_EM_T r 0 then Zero else if Rlt_dec 0 r then Pos else Neg.

Definition xneg (a : xreal) : xreal :=
  match a with
  | Fin r => Fin (- r)
  | PInf => NInf
  | NInf => PInf
  | NaN => NaN
  end.

Definition xadd (a b : xreal) : xreal :=
  match a, b with
  | NaN, _ | _, NaN => NaN
  | Fin x, Fin y => Fin (x + y)
  | PInf, NInf | NInf, PInf => NaN
  | PInf, _ | _, PInf => PInf
  | NInf, _ | _, NInf => NInf
  end.

Definition xsub (a b : xreal) : xreal := xadd a (xneg b).

(** [inf_of s]: the infinity of sign [s]; [0 * inf] is [nan]. *)
Definition inf_of (s : sign) : xreal :=
  match s with Pos => PInf | Neg => NInf | Zero => NaN end.

Definition sign_mul (s t : sign) : sign :=
  match s, t with
  | Zero, _ | _, Zero => Zero
  | Pos, Pos | Neg, Neg => Pos
  | _, _ => Neg
  end.

Definition xsign (a : xreal) : sign :=
  match a with
  | Fin r => Rsign r
  | PInf => Pos
  | NInf => Neg
  | NaN => Zero
  end.

Definition xmul (a b : xreal) : xreal :=
  match a, b with
  | NaN, _ | _, NaN => NaN
  | Fin x, Fin y => Fin (x * y)
  | _, _ => inf_of (sign_mul (xsign a) (xsign b))
  end.

(** numpy division: a zero divisor yields an infinity or [nan], never an
    exception. *)
Definition xdiv (a b : xreal) : xreal :=
  match a, b with
  | NaN, _ | _, NaN => NaN
  | Fin x, Fin y =>
      if Req_EM_T y 0 then inf_of (Rsign x) else Fin (x / y)
  | Fin _, _ => Fin 0
  | _, Fin y =>
      match Rsign y with
      | Neg => xneg a
      | _ => a
      end
  | _, _ => NaN
  end.

Definition xsqrt (a : xreal) : xreal :=
  match a with
  | Fin r => if Rlt_dec r 0 then NaN else Fin (sqrt r)
  | PInf => PInf
  | _ => NaN
  end.

Definition xsquare (a : xreal) : xreal := xmul a a.

Definition xcos (a : xreal) : xreal :=
  match a with Fin r => Fin (cos r) | _ => NaN end.

Definition xsin (a : xreal) : xreal :=
  match a with Fin r => Fin (sin r) | _ => NaN end.

(** [tan] is undefined at the poles; floats never hit one exactly, the
    idealised value there is [nan]. *)
Definition xtan (a : xreal) : xreal :=
  match a with
  | Fin r => if Req_EM_T (cos r) 0 then NaN else Fin (tan r)
  | _ => NaN
  end.

Definition xarctan (a : xreal) : xreal :=
  match a with
  | Fin r => Fin (atan r)
  | PInf => Fin (PI / 2)
  | NInf => Fin (- (PI / 2))
  | NaN => NaN
  end.

(** [a == b] on floats: [nan] is equal to nothing. *)
Definition xeqb (a b : xreal) : bool :=
  match a, b with
  | Fin x, Fin y => if Req_EM_T x y then true else false
  | PInf, PInf | NInf, NInf => true
  | _, _ => false
  end.

Definition xisfinite (a : xreal) : bool :=
  match a with Fin _ => true | _ => false end.

Definition xisnan (a : xreal) : bool :=
  match a with NaN => true | _ => false end.

Definition of_nat (n : nat) : xreal := Fin (INR n).

(** [np.sum] then [np.mean] of a flat sequence of values; the mean of an
    empty selection is [0/0 = nan]. *)
Definition xsum (l : list xreal) : xreal := fold_left xadd l (Fin 0).

Definition xmean (l : list xreal) : xreal :=
  xdiv (xsum l) (of_nat (length l)).

End XReal.
Export XReal.

(* ================================================================== *)
(** * Python sequences and numpy arrays *)
(* ================================================================== *)

Module Numpy.

Local Open Scope Z_scope.

(** ** Python slicing [l[lo:hi]] with integer bounds: a negative bound
    counts from the end, and every bound is clamped to [0, len]. *)
Definition slice_bound (n i : Z) : Z :=
  if i <? 0 then Z.max (i + n) 0 else Z.min i n.

Definition py_slice {A} (lo hi : Z) (l : list A) : list A :=
  let n := Z.of_nat (List.length l) in
  let a := slice_bound n lo in
  let b := slice_bound n hi in
  firstn (Z.to_nat (b - a)) (skipn (Z.to_nat a) l).

(** ** Arrays.  Frames handed over by the loaders are two-dimensional;
    the only other rank the pipeline can produce is three (a frame minus
    a one-element list of frames broadcasts to shape [(1, H, W)]). *)
Inductive ndarray : Type :=
| A2 (rows : list (list xreal))
| A3 (planes : list (list (list xreal))).

Definition np_shape (a : ndarray) : list nat :=
  match a with
  | A2 rows => [List.length rows; List.length (hd [] rows)]
  | A3 planes =>
      [List.length planes; List.length (hd [] planes);
       List.length (hd [] (hd [] planes))]
  end.

Definition np_flat (a : ndarray) : list xreal :=
  match a with
  | A2 rows => concat rows
  | A3 planes => concat (concat planes)
  end.

(** [a[y0:y1, x0:x1]]: slices the two leading axes. *)
Definition np_slice2 (y0 y1 x0 x1 : Z) (a : ndarray) : ndarray :=
  match a with
  | A2 rows => A2 (map (py_slice x0 x1) (py_slice y0 y1 rows))
  | A3 planes => A3 (map (py_slice x0 x1) (py_slice y0 y1 planes))
  end.

(** [np.mean(a)]: mean over every element. *)
Definition np_mean (a : ndarray) : xreal := xmean (np_flat a).

(** [a / m] for a numpy scalar [m]. *)
Definition np_div_scalar (a : ndarray) (m : xreal) : ndarray :=
  match a with
  | A2 rows => A2 (map (map (fun v => xdiv v m)) rows)
  | A3 planes => A3 (map (map (map (fun v => xdiv v m))) planes)
  end.

Fixpoint zip_opt {A B C} (f : A -> B -> option C)
         (l1 : list A) (l2 : list B) : option (list C) :=
  match l1, l2 with
  | [], [] => Some []
  | a :: l1', b :: l2' =>
      match f a b, zip_opt f l1' l2' with
      | Some c, Some cs => Some (c :: cs)
      | _, _ => None
      end
  | _, _ => None
  end.

Fixpoint map_opt {A B} (f : A -> option B) (l : list A) : option (list B) :=
  match l with
  | [] => Some []
  | a :: l' =>
      match f a, map_opt f l' with
      | Some b, Some bs => Some (b :: bs)
      | _, _ => None
      end
  end.

(** Broadcasting along one axis: equal lengths pair up, a length-one axis
    is stretched, anything else cannot be broadcast ([None]). *)
Definition bzip {A B C} (f : A -> B -> option C)
           (l1 : list A) (l2 : list B) : option (list C) :=
  if Nat.eqb (List.length l1) (List.length l2) then zip_opt f l1 l2
  else match l1, l2 with
       | [a], _ => map_opt (f a) l2
       | _, [b] => map_opt (fun a => f a b) l1
       | _, _ => None
       end.

Definition bsub1 : list xreal -> list xreal -> option (list xreal) :=
  bzip (fun a b => Some (xsub a b)).
Definition bsub2 := bzip bsub1.
Definition bsub3 := bzip bsub2.

(** [a - b] with numpy broadcasting (shapes are aligned on the right, so
    a two-dimensional operand gets a leading axis of length one). *)
Definition np_sub (a b : ndarray) : option ndarray :=
  match a, b with
  | A2 x, A2 y => option_map A2 (bsub2 x y)
  | A2 x, A3 y => option_map A3 (bsub3 [x] y)
  | A3 x, A2 y => option_map A3 (bsub3 x [y])
  | A3 x, A3 y => option_map A3 (bsub3 x y)
  end.

(** A Python list of frames used as an array operand: numpy stacks the
    frames along a new leading axis.  Only lists of equally shaped
    two-dimensional frames are representable here. *)
Definition shape_eqb (s t : list nat) : bool :=
  if list_eq_dec Nat.eq_dec s t then true else false.

Fixpoint stack_rows (l : list ndarray) : option (list (list (list xreal))) :=
  match l with
  | [] => Some []
  | A2 rows :: l' => option_map (cons rows) (stack_rows l')
  | A3 _ :: _ => None
  end.

Definition same_shape (l : list ndarray) : bool :=
  match l with
  | [] => true
  | a :: l' => forallb (fun b => shape_eqb (np_shape b) (np_shape a)) l'
  end.

Definition as_array (l : list ndarray) : option ndarray :=
  if same_shape l then option_map A3 (stack_rows l) else None.

(** ** Reshaping (row-major) *)

Fixpoint chunk_fuel {A} (fuel n : nat) (l : list A) : list (list A) :=
  match fuel with
  | O => []
  | S fuel' =>
      match l with
      | [] => []
      | _ => firstn n l :: chunk_fuel fuel' n (skipn n l)
      end
  end.

(** [chunk n l]: consecutive pieces of [l] of length [n]. *)
Definition chunk {A} (n : nat) (l : list A) : list (list A) :=
  chunk_fuel (List.length l) n l.

(** [a.reshape(d1, d2, d3, d4)] as used by the binning, where [d2 = d4]
    is the bin size: a negative dimension is refused (two of the four
    are the bin size, so no single [-1] placeholder can occur), and the
    sizes must agree. *)
Definition reshape4 (d1 d2 d3 d4 : Z) (a : ndarray)
  : option (list (list (list (list xreal)))) :=
  if (d1 <? 0) || (d2 <? 0) || (d3 <? 0) || (d4 <? 0) then None
  else if negb (Z.of_nat (List.length (np_flat a)) =? d1 * d2 * d3 * d4)
  then None
  else Some (chunk (Z.to_nat d2)
               (chunk (Z.to_nat d3)
                  (chunk (Z.to_nat d4) (np_flat a)))).

(** [m.mean(axis=3)] of a four-dimensional array. *)
Definition mean_axis3 (a : list (list (list (list xreal))))
  : list (list (list xreal)) :=
  map (map (map xmean)) a.

(** Mean of a [k x n] block over its first axis, giving [n] values. *)
Definition mean_cols (n : nat) (m : list (list xreal)) : list xreal :=
  map (fun k => xmean (map (fun r => nth k r NaN) m)) (seq 0 n).

(** [m.mean(axis=1)] of a three-dimensional array whose last axis has
    length [n]. *)
Definition mean_axis1 (n : nat) (a : list (list (list xreal)))
  : list (list xreal) :=
  map (mean_cols n) a.

End Numpy.
Export Numpy.

(* ================================================================== *)
(** * The pipeline instance *)
(* ================================================================== *)

(** [{'width': ..., 'height': ...}]; [None] stands for [np.NaN], the
    value both entries hold until the first frame of a role is loaded. *)
Record Shape : Type := mkShape {
  width : option nat;
  height : option nat
}.

(** [self.shape], the template copied into every role. *)
Definition unset_shape : Shape := {| width := None; height := None |}.

(** [shape_a == shape_b] on the two dictionaries.  Python compares the
    values by identity before equality, and every unset entry is the one
    [np.NaN] object, so two unset entries compare equal. *)
Definition Shape_eqb (a b : Shape) : bool :=
  let oeq (x y : option nat) :=
    match x, y with
    | Some m, Some n => Nat.eqb m n
    | None, None => true
    | _, _ => false
    end in
  oeq (width a) (width b) && oeq (height a) (height b).

(** The value bound to [_df] and cached under ['data_average']: either
    the Python list of dark-field frames itself or the array returned by
    [average_df]. *)
Inductive df_value : Type :=
| DfList (frames : list ndarray)
| DfArray (a : ndarray).

(** One of the dictionaries [dict_image], [dict_ob], [dict_df].  The keys
    ['oscilation'] (sample, ob; initialised, never written) and
    ['oscillation'] (absent until [oscillation] assigns it) are both kept;
    ['data_average'] belongs to the df role, [None] being the initial
    empty list. *)
Record dataset : Type := mkDataset {
  data : list ndarray;
  oscilation : list xreal;
  oscillation_key : option (list xreal);
  data_average : option df_value;
  file_name : list string;
  shape : Shape
}.

Definition empty_dataset : dataset :=
  {| data := []; oscilation := []; oscillation_key := None;
     data_average := None; file_name := []; shape := unset_shape |}.

(** [self.__exec_process_status] *)
Record ProcessStatus : Type := mkStatus {
  flag_df_correction : bool;
  flag_normalization : bool;
  flag_crop : bool;
  flag_oscillation : bool;
  flag_bin : bool
}.

(** [self.interferometry]; each entry starts as the empty list. *)
Record Interferometry : Type := mkInterferometry {
  transmission : list (list xreal);
  diff_phase_contrast : list (list xreal);
  dark_field : list (list xreal);
  visibility_map : list (list xreal)
}.

(** The instance.  [self.data] only aliases the three dictionaries, and
    [self.shape] and [self.roi] are never written after construction. *)
Record GratingInterferometer : Type := mkGI {
  dict_image : dataset;
  dict_ob : dataset;
  dict_df : dataset;
  exec_process_status : ProcessStatus;
  interferometry : Interferometry
}.

(** [__init__] *)
Definition init : GratingInterferometer :=
  {| dict_image := empty_dataset;
     dict_ob := empty_dataset;
     dict_df := empty_dataset;
     exec_process_status :=
       {| flag_df_correction := false; flag_normalization := false;
          flag_crop := false; flag_oscillation := false;
          flag_bin := false |};
     interferometry :=
       {| transmission := []; diff_phase_contrast := [];
          dark_field := []; visibility_map := [] |} |}.

Inductive data_type := Sample | Ob | Df.

(** [self.data[data_type]] *)
Definition get_role (t : data_type) (s : GratingInterferometer) : dataset :=
  match t with
  | Sample => dict_image s
  | Ob => dict_ob s
  | Df => dict_df s
  end.

Definition set_role (t : data_type) (d : dataset)
           (s : GratingInterferometer) : GratingInterferometer :=
  match t with
  | Sample => mkGI d (dict_ob s) (dict_df s)
                (exec_process_status s) (interferometry s)
  | Ob => mkGI (dict_image s) d (dict_df s)
            (exec_process_status s) (interferometry s)
  | Df => mkGI (dict_image s) (dict_ob s) d
            (exec_process_status s) (interferometry s)
  end.

Definition with_data (v : list ndarray) (d : dataset) : dataset :=
  mkDataset v (oscilation d) (oscillation_key d) (data_average d)
    (file_name d) (shape d).

Definition with_oscillation (v : list xreal) (d : dataset) : dataset :=
  mkDataset (data d) (oscilation d) (Some v) (data_average d)
    (file_name d) (shape d).

Definition with_data_average (v : df_value) (d : dataset) : dataset :=
  mkDataset (data d) (oscilation d) (oscillation_key d) (Some v)
    (file_name d) (shape d).

Definition with_file_name (v : list string) (d : dataset) : dataset :=
  mkDataset (data d) (oscilation d) (oscillation_key d) (data_average d)
    v (shape d).

Definition with_shape (v : Shape) (d : dataset) : dataset :=
  mkDataset (data d) (oscilation d) (oscillation_key d) (data_average d)
    (file_name d) v.

Definition with_status (p : ProcessStatus)
           (s : GratingInterferometer) : GratingInterferometer :=
  mkGI (dict_image s) (dict_ob s) (dict_df s) p (interferometry s).

Definition with_interferometry (i : Interferometry)
           (s : GratingInterferometer) : GratingInterferometer :=
  mkGI (dict_image s) (dict_ob s) (dict_df s) (exec_process_status s) i.

Definition set_flag_df_correction (p : ProcessStatus) : ProcessStatus :=
  mkStatus true (flag_normalization p) (flag_crop p)
    (flag_oscillation p) (flag_bin p).
Definition set_flag_normalization (p : ProcessStatus) : ProcessStatus :=
  mkStatus (flag_df_correction p) true (flag_crop p)
    (flag_oscillation p) (flag_bin p).
Definition set_flag_crop (p : ProcessStatus) : ProcessStatus :=
  mkStatus (flag_df_correction p) (flag_normalization p) true
    (flag_oscillation p) (flag_bin p).
Definition set_flag_bin (p : ProcessStatus) : ProcessStatus :=
  mkStatus (flag_df_correction p) (flag_normalization p) (flag_crop p)
    (flag_oscillation p) true.

(** [self.__exec_process_status.values()] *)
Definition status_values (p : ProcessStatus) : list bool :=
  [flag_df_correction p; flag_normalization p; flag_crop p;
   flag_oscillation p; flag_bin p].

(* ================================================================== *)
(** * Exceptions and the method monad *)
(* ================================================================== *)

(** The error kinds of the pipeline, one per [raise] of the source, and
    the run-time errors Python and numpy raise on their own. *)
Inductive exn : Type :=
| OperationNotAllowed   (* IOError: operation not allowed ... *)
| NotFound              (* OSError: the file name does not exist *)
| UnsupportedFormat     (* OSError: file extension not yet implemented *)
| ShapeMismatch         (* IOError / ValueError: shapes do not match *)
| CountMismatch         (* IOError: number of sample and ob do not match *)
| MissingData           (* IOError: no data / no OB loaded *)
| InvalidROI            (* ValueError: roi of wrong type or not fitting *)
| InvalidArgument       (* ValueError: bin missing or not an int *)
| KeyError              (* KeyError: wrong data type *)
| TypeError             (* numpy ufunc on a non-numeric argument *)
| AttributeError        (* reading a field the object does not have *)
| ZeroDivisionError     (* Python int division by zero *)
| IndexError            (* indexing an empty list *)
| NumpyValueError       (* numpy / unpacking ValueError *)
| LinAlgError.          (* numpy.linalg: singular matrix *)

Inductive outcome (A : Type) : Type :=
| Return (a : A)
| Raise (e : exn).
Arguments Return {A} a.
Arguments Raise {A} e.

(** What a method returns: Python's [None] or [True]. *)
Inductive retval := PyNone | PyTrue.

Definition M (A : Type) : Type :=
  GratingInterferometer -> outcome A * GratingInterferometer.

Definition ret {A} (a : A) : M A := fun s => (Return a, s).
Definition raise {A} (e : exn) : M A := fun s => (Raise e, s).
Definition bind {A B} (c : M A) (k : A -> M B) : M B :=
  fun s =>
    match c s with
    | (Return a, s') => k a s'
    | (Raise e, s') => (Raise e, s')
    end.
Definition get : M GratingInterferometer := fun s => (Return s, s).
Definition modify (f : GratingInterferometer -> GratingInterferometer)
  : M unit := fun s => (Return tt, f s).

Declare Scope gi_scope.
Delimit Scope gi_scope with gi.
Notation "x <- c ;; k" := (bind c (fun x => k))
  (at level 61, c at next level, right associativity) : gi_scope.
Notation "c ;; k" := (bind c (fun _ => k))
  (at level 61, right associativity) : gi_scope.
Open Scope gi_scope.

(** Guards: [when b c] runs [c] if [b]; a lifted [option] raises. *)
Definition when (b : bool) (c : M unit) : M unit :=
  if b then c else ret tt.

Definition lift_opt {A} (e : exn) (o : option A) : M A :=
  match o with Some a => ret a | None => raise e end.

Fixpoint for_each {A} (l : list A) (body : A -> M unit) : M unit :=
  match l with
  | [] => ret tt
  | a :: l' => body a ;; for_each l' body
  end.

Definition modify_role (t : data_type) (f : dataset -> dataset) : M unit :=
  modify (fun s => set_role t (f (get_role t s)) s).

Definition is_empty {A} (l : list A) : bool :=
  match l with [] => true | _ => false end.

(* ================================================================== *)
(** * Arguments and collaborators *)
(* ================================================================== *)

(** Modelled from the spec: the class [tapy.roi.ROI] is not part of the
    sources at hand; the pipeline only reads its four integer fields
    [x0], [y0], [x1], [y1] (inclusive bounds). *)
Record ROI : Type := mkROI {
  x0 : Z;
  y0 : Z;
  x1 : Z;
  y1 : Z
}.

(** What a caller may pass as [roi]: [None], an [ROI] instance, or any
    other object, of which only the truth value matters. *)
Inductive roi_arg : Type :=
| RoiNone
| RoiObj (r : ROI)
| RoiOther (truthy : bool).

(** [if roi:] *)
Definition roi_truthy (a : roi_arg) : bool :=
  match a with
  | RoiNone => false
  | RoiObj _ => true
  | RoiOther b => b
  end.

(** What a caller may pass as [bin]: an int, a finite float (a rational
    here), [nan], an infinity, or a non-numeric object. *)
Inductive bin_arg : Type :=
| BinInt (z : Z)
| BinFloat (num : Z) (den : positive)
| BinNaN
| BinInf
| BinOther.

(** The file system and the decoders of [tapy.loader] and
    [tapy._utilities], which the pipeline only calls. *)
Record FileSystem : Type := mkFS {
  is_file : string -> bool;
  load_fits : string -> list (list xreal);
  load_tiff : string -> list (list xreal);
  load_hdf : string -> list (list xreal);
  get_sorted_list_images : string -> list string
}.

(** ** Strings: [str.lower], [str.endswith], [os.path.join] *)

Local Open Scope string_scope.

Definition lower_ascii (c : ascii) : ascii :=
  let n := nat_of_ascii c in
  if (Nat.leb 65 n && Nat.leb n 90)%bool then ascii_of_nat (n + 32) else c.

Fixpoint lower (s : string) : string :=
  match s with
  | EmptyString => EmptyString
  | String c s' => String (lower_ascii c) (lower s')
  end.

Definition endswith (s suffix : string) : bool :=
  let n := String.length s in
  let m := String.length suffix in
  (Nat.leb m n && String.eqb (substring (n - m) m s) suffix)%bool.

Definition endswith_any (s : string) (suffixes : list string) : bool :=
  existsb (endswith s) suffixes.

Definition path_join (folder image : string) : string :=
  if String.prefix "/" image then image
  else if (String.eqb folder "" || endswith folder "/")%bool
       then folder ++ image
       else folder ++ "/" ++ image.

(* ================================================================== *)
(** * Loading *)
(* ================================================================== *)

(** [[height, width] = np.shape(a)] *)
Definition unpack2 (l : list nat) : M (nat * nat) :=
  match l with
  | [h; w] => ret (h, w)
  | _ => raise NumpyValueError
  end.

Definition save_or_check_shape (a : ndarray) (t : data_type) : M unit :=
  hw <- unpack2 (np_shape a) ;;
  let '(h, w) := hw in
  s <- get ;;
  match height (shape (get_role t s)) with
  | None =>
      modify_role t (with_shape {| width := Some w; height := Some h |})
  | Some _prev_height =>
      let _prev_width := width (shape (get_role t s)) in
      let same_w := match _prev_width with
                    | Some pw => Nat.eqb pw w
                    | None => false
                    end in
      if (negb same_w || negb (Nat.eqb _prev_height h))%bool
      then raise ShapeMismatch
      else ret tt
  end.

Definition load_file (fs : FileSystem) (file : string) (t : data_type)
  : M unit :=
  if is_file fs file then
    a <- (if endswith (lower file) ".fits" then
            ret (load_fits fs file)
          else if endswith_any (lower file) [".tiff"; ".tif"] then
            ret (load_tiff fs file)
          else if endswith_any (lower file)
                    [".hdf"; ".h4"; ".hdf4"; ".he2"; "h5"; ".hdf5"; ".he5"]
          then ret (load_hdf fs file)
          else raise UnsupportedFormat) ;;
    modify_role t (fun d => with_data (data d ++ [A2 a])%list d) ;;
    modify_role t (fun d => with_file_name (file_name d ++ [file])%list d) ;;
    save_or_check_shape (A2 a) t
  else raise NotFound.

Definition load (fs : FileSystem) (file folder : string) (t : data_type)
  : M unit :=
  s <- get ;;
  let list_exec_flag := status_values (exec_process_status s) in
  if existsb (fun b => b) list_exec_flag then raise OperationNotAllowed
  else
    when (negb (String.eqb file "")) (load_file fs file t) ;;
    when (negb (String.eqb folder ""))
      (for_each (get_sorted_list_images fs folder)
         (fun _image => load_file fs (path_join folder _image) t)).

(* ================================================================== *)
(** * The correction stages *)
(* ================================================================== *)

Local Open Scope Z_scope.

Definition data_loaded_have_matching_shape (s : GratingInterferometer)
  : bool :=
  let _shape_sample := shape (dict_image s) in
  let _shape_ob := shape (dict_ob s) in
  if negb (Shape_eqb _shape_sample _shape_ob) then false
  else
    let _shape_df := shape (dict_df s) in
    match height _shape_df with
    | Some _ => if negb (Shape_eqb _shape_sample _shape_df) then false
                else true
    | None => true
    end.

(** [data[0]] of a Python list. *)
Definition first {A} (l : list A) : M A :=
  match l with
  | a :: _ => ret a
  | [] => raise IndexError
  end.

Definition __roi_fit_into_sample (roi : ROI) : M bool :=
  s <- get ;;
  im <- first (data (dict_image s)) ;;
  hw <- unpack2 (np_shape im) ;;
  let '(sample_height, sample_width) := hw in
  if ((x0 roi <? 0) || (x1 roi >=? Z.of_nat sample_width))%bool
  then ret false
  else if ((y0 roi <? 0) || (y1 roi >=? Z.of_nat sample_height))%bool
  then ret false
  else ret true.

(** [a[_y0:_y1+1, _x0:_x1+1]] *)
Definition roi_window (roi : ROI) (a : ndarray) : ndarray :=
  np_slice2 (y0 roi) (y1 roi + 1) (x0 roi) (x1 roi + 1) a.

(** The fields of an argument already known to be an [ROI]. *)
Definition roi_fields (a : roi_arg) : M ROI :=
  match a with
  | RoiObj r => ret r
  | _ => raise AttributeError
  end.

Definition normalization (roi : roi_arg) (force : bool) : M retval :=
  s <- get ;;
  if (negb force && flag_normalization (exec_process_status s))%bool
  then ret PyNone
  else
    modify (fun s => with_status
                       (set_flag_normalization (exec_process_status s)) s) ;;
    if is_empty (data (dict_image s)) then raise MissingData
    else if is_empty (data (dict_ob s)) then raise MissingData
    else
      let nbr_sample := List.length (file_name (dict_image s)) in
      let nbr_ob := List.length (file_name (dict_ob s)) in
      if negb (Nat.eqb nbr_sample nbr_ob) then raise CountMismatch
      else if negb (data_loaded_have_matching_shape s)
      then raise ShapeMismatch
      else
        when (roi_truthy roi)
          (match roi with
           | RoiObj r =>
               fit <- __roi_fit_into_sample r ;;
               if negb fit then raise InvalidROI else ret tt
           | _ => raise InvalidROI
           end) ;;
        new <- (if roi_truthy roi then
                  r <- roi_fields roi ;;
                  let norm := fun f =>
                    np_div_scalar f (np_mean (roi_window r f)) in
                  ret (map norm (data (dict_image s)),
                       map norm (data (dict_ob s)))
                else
                  ret (data (dict_image s), data (dict_ob s))) ;;
        modify_role Sample (with_data (fst new)) ;;
        modify_role Ob (with_data (snd new)) ;;
        ret PyTrue.

(** Modelled from the spec: [tapy._utilities.average_df] is not part of
    the sources at hand; the spec gives "mean over df frames", that is
    [np.mean(df, axis=0)], which needs equally shaped frames. *)
Definition average_df (df : list ndarray) : option ndarray :=
  if negb (same_shape df) then None
  else
    match stack_rows df with
    | None => None
    | Some planes =>
        let h := List.length (hd [] planes) in
        let w := List.length (hd [] (hd [] planes)) in
        Some (A2 (map (fun y =>
                         map (fun x =>
                                xmean (map (fun p => nth x (nth y p []) NaN)
                                         planes))
                           (seq 0 w))
                    (seq 0 h)))
    end.

(** [_data - _df] *)
Definition sub_df (_df : df_value) (_data : ndarray) : option ndarray :=
  match _df with
  | DfList l =>
      match as_array l with
      | Some a => np_sub _data a
      | None => None
      end
  | DfArray a => np_sub _data a
  end.

Definition __df_correction (t : data_type) : M unit :=
  match t with
  | Df => raise KeyError
  | _ =>
      s <- get ;;
      if is_empty (data (dict_df s)) then ret tt
      else
        _df <- (match data_average (dict_df s) with
                | None =>
                    let _df := data (dict_df s) in
                    _df <- (if (1 <? Z.of_nat (List.length _df)) then
                              a <- lift_opt NumpyValueError (average_df _df) ;;
                              ret (DfArray a)
                            else ret (DfList _df)) ;;
                    modify_role Df (with_data_average _df) ;;
                    ret _df
                | Some _df => ret _df
                end) ;;
        d0 <- first (data (get_role t s)) ;;
        df0 <- first (data (dict_df s)) ;;
        if negb (shape_eqb (np_shape d0) (np_shape df0))
        then raise ShapeMismatch
        else
          _data_df_corrected <-
            lift_opt NumpyValueError
              (map_opt (sub_df _df) (data (get_role t s))) ;;
          modify_role t (with_data _data_df_corrected)
  end.

Definition df_correction (force : bool) : M retval :=
  s <- get ;;
  if (negb force && flag_df_correction (exec_process_status s))%bool
  then ret PyNone
  else
    modify (fun s => with_status
                       (set_flag_df_correction (exec_process_status s)) s) ;;
    when (negb (is_empty (data (dict_image s)))) (__df_correction Sample) ;;
    when (negb (is_empty (data (dict_ob s)))) (__df_correction Ob) ;;
    ret PyNone.

Definition crop (roi : roi_arg) (force : bool) : M retval :=
  s <- get ;;
  if (is_empty (data (dict_image s)) || is_empty (data (dict_ob s)))%bool
  then raise MissingData
  else
    match roi with
    | RoiObj r =>
        if (negb force && flag_crop (exec_process_status s))%bool
        then ret PyNone
        else
          modify (fun s => with_status
                             (set_flag_crop (exec_process_status s)) s) ;;
          let new_sample := map (roi_window r) (data (dict_image s)) in
          modify_role Sample (with_data new_sample) ;;
          let new_ob := map (roi_window r) (data (dict_ob s)) in
          modify_role Ob (with_data new_ob) ;;
          ret PyTrue
    | _ => raise InvalidROI
    end.

(** The [plot] branch hands the first sample frame, the rectangle and the
    two sequences to matplotlib; only what can fail before the rendering
    is kept. *)
Definition oscillation (roi : roi_arg) (plot : bool) : M retval :=
  when (roi_truthy roi)
    (match roi with
     | RoiObj _ => ret tt
     | _ => raise InvalidROI
     end) ;;
  s <- get ;;
  means <- (if roi_truthy roi then
              r <- roi_fields roi ;;
              ret (map (fun f => np_mean (roi_window r f))
                     (data (dict_image s)),
                   map (fun f => np_mean (roi_window r f))
                     (data (dict_ob s)))
            else
              ret (map np_mean (data (dict_image s)),
                   map np_mean (data (dict_ob s)))) ;;
  modify_role Sample (with_oscillation (fst means)) ;;
  modify_role Ob (with_oscillation (snd means)) ;;
  when plot
    (im <- first (data (dict_image s)) ;;
     if negb (roi_truthy roi) then
       _ <- unpack2 (np_shape im) ;; ret tt
     else ret tt) ;;
  ret PyNone.

Definition rebin_frame (bin new_height new_width
                          _nbr_height_bin _nbr_width_bin : Z)
           (_data : ndarray) : option ndarray :=
  let _new_data := np_slice2 0 new_height 0 new_width _data in
  match reshape4 _nbr_height_bin bin _nbr_width_bin bin _new_data with
  | None => None
  | Some r =>
      Some (A2 (mean_axis1 (Z.to_nat _nbr_width_bin) (mean_axis3 r)))
  end.

Definition __binning_data (bin : Z) (t : data_type) : M unit :=
  s <- get ;;
  d0 <- first (data (get_role t s)) ;;
  hw <- unpack2 (np_shape d0) ;;
  let height := Z.of_nat (fst hw) in
  let width := Z.of_nat (snd hw) in
  if bin =? 0 then raise ZeroDivisionError
  else
    let _nbr_height_bin := height / bin in
    let new_height :=
      if negb (height mod bin =? 0) then _nbr_height_bin * bin
      else height in
    let _nbr_width_bin := width / bin in
    let new_width :=
      if negb (width mod bin =? 0) then _nbr_width_bin * bin
      else width in
    data_rebinned <-
      lift_opt NumpyValueError
        (map_opt (rebin_frame bin new_height new_width
                    _nbr_height_bin _nbr_width_bin)
           (data (get_role t s))) ;;
    modify_role t (with_data data_rebinned).

(** [np.isnan(bin)]; the ufunc refuses a non-numeric argument. *)
Definition np_isnan (bin : bin_arg) : M bool :=
  match bin with
  | BinNaN => ret true
  | BinOther => raise TypeError
  | _ => ret false
  end.

(** [np.int(bin)], in the numpy releases this code runs on an alias of
    the builtin [int]: a float is truncated toward zero, an infinity
    overflows (the [try] turns that into the ValueError). *)
Definition np_int (bin : bin_arg) : option Z :=
  match bin with
  | BinInt z => Some z
  | BinFloat n d => Some (Z.quot n (Z.pos d))
  | _ => None
  end.

Definition binning (bin : bin_arg) (force : bool) : M retval :=
  nan <- np_isnan bin ;;
  if nan then raise InvalidArgument
  else
    bin <- lift_opt InvalidArgument (np_int bin) ;;
    s <- get ;;
    if (negb force && flag_bin (exec_process_status s))%bool
    then ret PyNone
    else
      modify (fun s => with_status
                         (set_flag_bin (exec_process_status s)) s) ;;
      if is_empty (data (dict_image s)) then raise MissingData
      else if is_empty (data (dict_ob s)) then raise MissingData
      else
        __binning_data bin Sample ;;
        __binning_data bin Ob ;;
        ret PyNone.

(* ================================================================== *)
(** * Harmonic reduction and interferometry maps *)
(* ================================================================== *)

(** Matrices ([np.matrix]) as lists of rows. *)
Definition matrix := list (list xreal).

Definition column (j : nat) (m : matrix) : list xreal :=
  map (fun r => nth j r NaN) m.

Definition ncols (m : matrix) : nat := List.length (hd [] m).

Definition transpose (m : matrix) : matrix :=
  map (fun j => column j m) (seq 0 (ncols m)).

Definition map2 {A B C} (f : A -> B -> C) (l1 : list A) (l2 : list B)
  : list C :=
  map (fun p => f (fst p) (snd p)) (combine l1 l2).

Definition dot (r c : list xreal) : xreal := xsum (map2 xmul r c).

Definition matmul (a b : matrix) : matrix :=
  map (fun r => map (fun j => dot r (column j b)) (seq 0 (ncols b))) a.

Record Reduction : Type := mkReduction {
  offset : matrix;
  amplitude : matrix;
  phase : matrix
}.

(** [2.*np.pi*_index*number_periods/(nbr_images-1)] *)
Definition step_angle (nbr_images _index : nat) (number_periods : xreal)
  : xreal :=
  xdiv (xmul (xmul (xmul (Fin 2) (Fin PI)) (of_nat _index)) number_periods)
       (Fin (IZR (Z.of_nat nbr_images - 1))).

(** The design matrix [B]. *)
Definition design_matrix (nbr_images : nat) (number_periods : xreal)
  : matrix :=
  map (fun _index =>
         [Fin 1;
          xcos (step_angle nbr_images _index number_periods);
          xsin (step_angle nbr_images _index number_periods)])
      (seq 0 nbr_images).

(** [[nbr_images, height, width] = np.shape(data)] for a list of frames. *)
Definition stack_shape (l : list ndarray) : M (nat * nat * nat) :=
  match l with
  | [] => raise NumpyValueError
  | _ =>
      match as_array l with
      | Some a =>
          match np_shape a with
          | [n; h; w] => ret (n, h, w)
          | _ => raise NumpyValueError
          end
      | None => raise NumpyValueError
      end
  end.

(** [A[k,:]] *)
Definition row (k : nat) (a : matrix) : M (list xreal) :=
  lift_opt IndexError (nth_error a k).

(** [absolute_amplitude[absolute_amplitude == 0] = np.NaN] *)
Definition zero_to_nan (l : list xreal) : list xreal :=
  map (fun c => if xeqb c (Fin 0) then NaN else c) l.

Section Reduction.

(** [(...).I] is numpy's LAPACK-backed inverse; [None] stands for its
    [LinAlgError]. *)
Variable inv : matrix -> option matrix.

Definition reduction_operator (B : matrix) : M matrix :=
  i <- lift_opt LinAlgError (inv (matmul (transpose B) B)) ;;
  ret (matmul i (transpose B)).

Definition _create_reduction_matrix (t : data_type) (number_periods : xreal)
  : M Reduction :=
  s <- get ;;
  let data := data (get_role t s) in
  nhw <- stack_shape data ;;
  let '(nbr_images, height, width) := nhw in
  let data_reshaped := map np_flat data in
  let B := design_matrix nbr_images number_periods in
  G <- reduction_operator B ;;
  let A := matmul G data_reshaped in
  offset <- row 0 A ;;
  absolute_amplitude <- row 1 A ;;
  absolute_phase <- row 2 A ;;
  let offset := chunk width offset in
  let amplitude :=
    chunk width
      (map xsqrt (map2 xadd (map xsquare absolute_amplitude)
                            (map xsquare absolute_phase))) in
  let absolute_amplitude := zero_to_nan absolute_amplitude in
  let phase :=
    chunk width (map xarctan (map2 xdiv absolute_phase absolute_amplitude)) in
  ret {| offset := offset; amplitude := amplitude; phase := phase |}.

(** Modelled from the spec: [tapy._utilities.remove_inf_null] is not part
    of the sources at hand; the spec gives "replace infinite/not-a-number
    values ... with 0". *)
Definition remove_inf_null (m : matrix) : matrix :=
  map (map (fun v => if xisfinite v then v else Fin 0)) m.

(** [np.divide] and [-] on two-dimensional operands, with broadcasting. *)
Definition np_divide (a b : matrix) : option matrix :=
  bzip (bzip (fun x y => Some (xdiv x y))) a b.

Definition np_minus (a b : matrix) : option matrix := bsub2 a b.

Definition set_transmission (v : matrix) (i : Interferometry) :=
  mkInterferometry v (diff_phase_contrast i) (dark_field i)
    (visibility_map i).
Definition set_diff_phase_contrast (v : matrix) (i : Interferometry) :=
  mkInterferometry (transmission i) v (dark_field i) (visibility_map i).
Definition set_dark_field (v : matrix) (i : Interferometry) :=
  mkInterferometry (transmission i) (diff_phase_contrast i) v
    (visibility_map i).
Definition set_visibility_map (v : matrix) (i : Interferometry) :=
  mkInterferometry (transmission i) (diff_phase_contrast i)
    (dark_field i) v.

Definition store (f : matrix -> Interferometry -> Interferometry)
           (v : matrix) : M unit :=
  modify (fun s => with_interferometry (f v (interferometry s)) s).

(** The second half of [create_interferometry_images]: from the two
    reductions to the four stored maps. *)
Definition derive_maps (_sample_reduction_matrix _ob_reduction_matrix
                        : Reduction) : M unit :=
  let _sample_offset := offset _sample_reduction_matrix in
  let _sample_amplitude := amplitude _sample_reduction_matrix in
  let _sample_phase := phase _sample_reduction_matrix in
  let _ob_offset := offset _ob_reduction_matrix in
  let _ob_amplitude := amplitude _ob_reduction_matrix in
  let _ob_phase := phase _ob_reduction_matrix in
  let _sample_offset := remove_inf_null _sample_offset in
  let _ob_offset := remove_inf_null _ob_offset in
  transmission <-
    lift_opt NumpyValueError (np_divide _sample_offset _ob_offset) ;;
  store set_transmission transmission ;;
  diff_phase_contrast <-
    lift_opt NumpyValueError (np_minus _sample_phase _ob_phase) ;;
  let diff_phase_contrast :=
    map (map (fun v => xarctan (xtan v))) diff_phase_contrast in
  store set_diff_phase_contrast diff_phase_contrast ;;
  num <- lift_opt NumpyValueError
           (np_divide _sample_amplitude _sample_offset) ;;
  den <- lift_opt NumpyValueError (np_divide _ob_amplitude _ob_offset) ;;
  dark_field <- lift_opt NumpyValueError (np_divide num den) ;;
  store set_dark_field dark_field ;;
  visibility_map <-
    lift_opt NumpyValueError (np_divide _ob_amplitude _ob_offset) ;;
  store set_visibility_map visibility_map.

Definition create_interferometry_images (number_periods : xreal) : M unit :=
  _sample_reduction_matrix <-
    _create_reduction_matrix Sample number_periods ;;
  _ob_reduction_matrix <- _create_reduction_matrix Ob number_periods ;;
  derive_maps _sample_reduction_matrix _ob_reduction_matrix.

End Reduction.

(* ================================================================== *)
(** * Notions used in the statements *)
(* ================================================================== *)

(** A computation leaves the observation [f] of the instance alone,
    whether it returns or raises. *)
Definition keeps {A X} (f : GratingInterferometer -> X) (c : M A) : Prop :=
  forall s, f (snd (c s)) = f s.

(** A two-dimensional frame of [h] rows and [w] columns. *)
Definition is_frame (h w : nat) (a : ndarray) : Prop :=
  exists rows, a = A2 rows /\ List.length rows = h /\
               Forall (fun r => List.length r = w) rows.

(** [m[y, x]] *)
Definition entry (y x : nat) (m : matrix) : xreal :=
  nth x (nth y m []) NaN.

Definition pixel (y x : nat) (a : ndarray) : xreal :=
  match a with
  | A2 rows => entry y x rows
  | A3 _ => NaN
  end.

(** The [k]-th fitted coefficient at pixel [(y, x)], as the spec words
    it: the [k]-th row of [G] applied to that pixel's values across the
    stack. *)
Definition harmonic_coefficient (G : matrix) (k : nat)
           (frames : list ndarray) (y x : nat) : xreal :=
  dot (nth k G []) (map (pixel y x) frames).


(** The stage ran: it is forced or its flag is still unset. *)
Definition runs (force flag : bool) : Prop :=
  (negb force && flag)%bool = false.

(** Any stage flag is set. *)
Definition any_stage_run (s : GratingInterferometer) : bool :=
  existsb (fun b => b) (status_values (exec_process_status s)).

(** A matrix of [h] rows and [w] columns, and one without [inf]/[nan]. *)
Definition has_shape (h w : nat) (m : matrix) : Prop :=
  List.length m = h /\ Forall (fun r => List.length r = w) m.


(* ------------------------------------------------------------------ *)
(** ** Concrete instances *)
(* ------------------------------------------------------------------ *)

Module Demo.

(** A file system with a 1x1 image, a 1x2 image and a 2x2 image. *)
Definition fs : FileSystem :=
  {| is_file := fun f =>
       (String.eqb f "a.tif" || String.eqb f "b.tif"
        || String.eqb f "c.tif")%bool;
     load_fits := fun _ => [];
     load_tiff := fun f =>
       if String.eqb f "a.tif" then [[Fin 2]]
       else if String.eqb f "b.tif" then [[Fin 1; Fin 2]]
       else [[Fin 1; Fin 2]; [Fin 3; Fin 4]];
     load_hdf := fun _ => [];
     get_sorted_list_images := fun _ => [] |}.

Definition after {A} (c : M A) (s : GratingInterferometer)
  : GratingInterferometer := snd (c s).

(** One 1x1 sample frame of value 2, nothing else. *)
Definition sample_only : GratingInterferometer :=
  after (load fs "a.tif" "" Sample) init.

(** One 1x1 sample frame and one 1x1 ob frame, both of value 2. *)
Definition uniform_pair : GratingInterferometer :=
  after (load fs "a.tif" "" Ob) sample_only.

(** One 2x2 sample frame and one 2x2 ob frame. *)
Definition square_pair : GratingInterferometer :=
  after (load fs "c.tif" "" Ob) (after (load fs "c.tif" "" Sample) init).

(** A 1x1 sample frame together with a 1x2 dark-field frame. *)
Definition mismatched_df : GratingInterferometer :=
  after (load fs "b.tif" "" Df) sample_only.

(** A 4x4 frame whose value at row [y], column [x] is [10 y + x]. *)
Definition ramp : ndarray :=
  A2 [[Fin 0; Fin 1; Fin 2; Fin 3];
      [Fin 10; Fin 11; Fin 12; Fin 13];
      [Fin 20; Fin 21; Fin 22; Fin 23];
      [Fin 30; Fin 31; Fin 32; Fin 33]].

(** Three 1x1 frames in each of sample and ob. *)
Definition three_steps : GratingInterferometer :=
  let l := load fs "a.tif" "" in
  after (l Ob) (after (l Ob) (after (l Ob)
    (after (l Sample) (after (l Sample) (after (l Sample) init))))).

(** A file system holding one FITS image whose extension is written in
    mixed case. *)
Definition fits_fs : FileSystem :=
  {| is_file := fun f => String.eqb f "scan_01.FiTs";
     load_fits := fun _ => [[Fin 1; Fin 2]];
     load_tiff := fun _ => [];
     load_hdf := fun _ => [];
     get_sorted_list_images := fun _ => [] |}.


(** A file system whose folder "run" lists two 1x2 images. *)
Definition folder_fs : FileSystem :=
  {| is_file := fun f =>
       (String.eqb f "run/0001.tif" || String.eqb f "run/0002.tif")%bool;
     load_fits := fun _ => [];
     load_tiff := fun f =>
       if String.eqb f "run/0001.tif" then [[Fin 1; Fin 2]]
       else [[Fin 3; Fin 4]];
     load_hdf := fun _ => [];
     get_sorted_list_images := fun _ => ["0001.tif"; "0002.tif"] |}.



(** A stand-in for the inverse that always answers the 3x3 identity. *)
Definition unit_inverse (_ : matrix) : option matrix :=
  Some [[Fin 1; Fin 0; Fin 0]; [Fin 0; Fin 1; Fin 0]; [Fin 0; Fin 0; Fin 1]].

End Demo.


(* ================================================================== *)
(** * Notions used by the further properties *)
(* ================================================================== *)

(** Every flag set in [p] is set in [q]. *)
Definition flags_le (p q : ProcessStatus) : Prop :=
  (flag_df_correction p = true -> flag_df_correction q = true) /\
  (flag_normalization p = true -> flag_normalization q = true) /\
  (flag_crop p = true -> flag_crop q = true) /\
  (flag_oscillation p = true -> flag_oscillation q = true) /\
  (flag_bin p = true -> flag_bin q = true).

(** What a stage may do to the instance: rewrite frames of a role without
    changing their number, cache derived values and set flags.  File
    names, stored shapes and the dark-field frames stay as they are. *)
Definition frames_rewritten (s s' : GratingInterferometer) : Prop :=
  (forall t, file_name (get_role t s') = file_name (get_role t s)) /\
  (forall t, shape (get_role t s') = shape (get_role t s)) /\
  (forall t, List.length (data (get_role t s'))
             = List.length (data (get_role t s))) /\
  data (dict_df s') = data (dict_df s) /\
  flags_le (exec_process_status s) (exec_process_status s').

(** The list of file names runs parallel to the list of frames. *)
Definition aligned (d : dataset) : Prop :=
  List.length (data d) = List.length (file_name d).

Definition all_aligned (s : GratingInterferometer) : Prop :=
  forall t, aligned (get_role t s).

(** A call of a public method, and the instance left behind by a sequence
    of calls (whether each one returns or raises). *)
Inductive call : Type :=
| Load (fs : FileSystem) (file folder : string) (t : data_type)
| LoadFile (fs : FileSystem) (file : string) (t : data_type)
| Normalization (roi : roi_arg) (force : bool)
| DfCorrection (force : bool)
| Crop (roi : roi_arg) (force : bool)
| Oscillation (roi : roi_arg) (plot : bool)
| Binning (bin : bin_arg) (force : bool)
| CreateInterferometryImages (inv : matrix -> option matrix)
                             (number_periods : xreal).

Definition exec_call (c : call) (s : GratingInterferometer)
  : GratingInterferometer :=
  match c with
  | Load fs file folder t => snd (load fs file folder t s)
  | LoadFile fs file t => snd (load_file fs file t s)
  | Normalization roi force => snd (normalization roi force s)
  | DfCorrection force => snd (df_correction force s)
  | Crop roi force => snd (crop roi force s)
  | Oscillation roi plot => snd (oscillation roi plot s)
  | Binning bin force => snd (binning bin force s)
  | CreateInterferometryImages inv p =>
      snd (create_interferometry_images inv p s)
  end.

Definition run_calls (l : list call) (s : GratingInterferometer)
  : GratingInterferometer :=
  fold_left (fun s c => exec_call c s) l s.

(** The calls that are pipeline stages (everything but the two loaders). *)
Definition is_stage (c : call) : bool :=
  match c with
  | Load _ _ _ _ | LoadFile _ _ _ => false
  | _ => true
  end.

(** A computation started in any instance reached from [s0] by rewriting
    frames ends in such an instance again, whether it returns or
    raises. *)
Definition rewrites_from {A} (s0 : GratingInterferometer) (c : M A) : Prop :=
  forall s1, frames_rewritten s0 s1 -> frames_rewritten s0 (snd (c s1)).

Definition rewrites {A} (c : M A) : Prop :=
  forall s, frames_rewritten s (snd (c s)).

(** The array [load_file] obtains for a name: the decoder is chosen by
    the first matching group of extensions, after lower-casing. *)
Definition decodes_to (fs : FileSystem) (file : string)
           (a : list (list xreal)) : Prop :=
  (endswith (lower file) ".fits" = true /\ a = load_fits fs file) \/
  (endswith (lower file) ".fits" = false /\
   endswith_any (lower file) [".tiff"; ".tif"] = true /\
   a = load_tiff fs file) \/
  (endswith (lower file) ".fits" = false /\
   endswith_any (lower file) [".tiff"; ".tif"] = false /\
   endswith_any (lower file)
     [".hdf"; ".h4"; ".hdf4"; ".he2"; "h5"; ".hdf5"; ".he5"] = true /\
   a = load_hdf fs file).

(** The instance after [load_file] has appended a frame and its name. *)
Definition appended (t : data_type) (a : ndarray) (file : string)
           (s : GratingInterferometer) : GratingInterferometer :=
  set_role t
    (with_file_name (file_name (get_role t s) ++ [file])%list
       (with_data (data (get_role t s) ++ [a])%list (get_role t s))) s.

(** The mean of the [b x b] block of a frame at block row [i] and block
    column [k], taken as the binning takes it: the mean, over the rows of
    the block, of the mean of each row. *)
Definition block_mean (b : nat) (a : ndarray) (i k : nat) : xreal :=
  xmean (map (fun j =>
                xmean (map (fun l => pixel (i * b + j) (k * b + l) a)
                         (seq 0 b)))
           (seq 0 b)).

(** [a'] is the [h' x w'] frame of the block means of [a]. *)
Definition binned (b h' w' : nat) (a a' : ndarray) : Prop :=
  is_frame h' w' a' /\
  forall i k, (i < h')%nat -> (k < w')%nat ->
              pixel i k a' = block_mean b a i k.



(** The extensions [load_file] knows how to read, and the frame it
    decodes from a file carrying one of them. *)
Definition supported_extension (file : string) : bool :=
  (endswith (lower file) ".fits"
   || endswith_any (lower file) [".tiff"; ".tif"]
   || endswith_any (lower file)
        [".hdf"; ".h4"; ".hdf4"; ".he2"; "h5"; ".hdf5"; ".he5"])%bool.

Definition decoded (fs : FileSystem) (file : string) : list (list xreal) :=
  if endswith (lower file) ".fits" then load_fits fs file
  else if endswith_any (lower file) [".tiff"; ".tif"] then load_tiff fs file
  else load_hdf fs file.

(** The stored shape of a role is unset, or is [h x w]. *)
Definition shape_unset_or (h w : nat) (d : dataset) : Prop :=
  height (shape d) = None \/
  shape d = {| width := Some w; height := Some h |}.

(** [a'] is the [h x w] frame [a] with every value divided by the mean
    of [a] over the window of [r]. *)
Definition divided_by_roi_mean (r : ROI) (h w : nat)
           (a a' : ndarray) : Prop :=
  is_frame h w a' /\
  forall y x, (y < h)%nat -> (x < w)%nat ->
              pixel y x a' = xdiv (pixel y x a) (np_mean (roi_window r a)).

(* ================================================================== *)
(** * Proofs *)
(* ================================================================== *)

Unset Implicit Arguments.
Local Open Scope nat_scope.

(* ================================================================== *)
(** * Frame rules of the method monad *)
(* ================================================================== *)

Section Keeps.

Context {X : Type} (f : GratingInterferometer -> X).

Lemma keeps_ret {A} (a : A) : keeps f (ret a).
Proof. intro s. reflexivity. Qed.

Lemma keeps_raise {A} (e : exn) : keeps f (@raise A e).
Proof. intro s. reflexivity. Qed.

Lemma keeps_get : keeps f get.
Proof. intro s. reflexivity. Qed.

Lemma keeps_bind {A B} (c : M A) (k : A -> M B) :
  keeps f c -> (forall a, keeps f (k a)) -> keeps f (bind c k).
Proof.
  intros Hc Hk s. unfold bind.
  specialize (Hc s). destruct (c s) as [[a | e] s']; simpl in *.
  - rewrite Hk. exact Hc.
  - exact Hc.
Qed.

Lemma keeps_modify (g : GratingInterferometer -> GratingInterferometer) :
  (forall s, f (g s) = f s) -> keeps f (modify g).
Proof. intros H s. apply H. Qed.

Lemma keeps_when (b : bool) (c : M unit) : keeps f c -> keeps f (when b c).
Proof. destruct b; intro H; [exact H | apply keeps_ret]. Qed.

Lemma keeps_lift_opt {A} (e : exn) (o : option A) : keeps f (lift_opt e o).
Proof. destruct o; [apply keeps_ret | apply keeps_raise]. Qed.

Lemma keeps_first {A} (l : list A) : keeps f (first l).
Proof. destruct l; [apply keeps_raise | apply keeps_ret]. Qed.

Lemma keeps_unpack2 (l : list nat) : keeps f (unpack2 l).
Proof.
  destruct l as [| h [| w [| ? ?]]];
    first [apply keeps_raise | apply keeps_ret].
Qed.

Lemma keeps_roi_fields (a : roi_arg) : keeps f (roi_fields a).
Proof. destruct a; first [apply keeps_raise | apply keeps_ret]. Qed.

Lemma keeps_for_each {A} (l : list A) (body : A -> M unit) :
  (forall a, keeps f (body a)) -> keeps f (for_each l body).
Proof.
  intro H. induction l as [| a l IH]; simpl.
  - apply keeps_ret.
  - apply keeps_bind; [apply H | intros _; exact IH].
Qed.

End Keeps.

Create HintDb keeps.
#[export] Hint Resolve keeps_ret keeps_raise keeps_get keeps_lift_opt
  keeps_first keeps_unpack2 keeps_roi_fields : keeps.

(** One step of a frame proof: split a bind, take a branch, or close a
    leaf with the rules above. *)
Ltac keeps_step :=
  match goal with
  | |- keeps _ (bind _ _) => apply keeps_bind; [| intros ?]
  | |- keeps _ (when _ _) => apply keeps_when
  | |- keeps _ (for_each _ _) => apply keeps_for_each; intros ?
  | |- keeps _ (if ?b then _ else _) => destruct b
  | |- keeps _ (match ?x with _ => _ end) => destruct x
  | |- keeps _ (let '(_, _) := ?p in _) => destruct p
  | |- keeps _ _ => solve [auto with keeps]
  end.

Ltac keeps_auto := repeat keeps_step.

(** ** The stage flags are only written by the stages themselves *)

Lemma status_set_role t d s :
  exec_process_status (set_role t d s) = exec_process_status s.
Proof. destruct t; reflexivity. Qed.

Lemma keeps_status_modify_role t g :
  keeps exec_process_status (modify_role t g).
Proof. apply keeps_modify. intro s. apply status_set_role. Qed.

#[export] Hint Resolve keeps_status_modify_role : keeps.

Lemma keeps_status_df_correction_role t :
  keeps exec_process_status (__df_correction t).
Proof. unfold __df_correction. keeps_auto. Qed.

Lemma keeps_status_save_or_check_shape a t :
  keeps exec_process_status (save_or_check_shape a t).
Proof. unfold save_or_check_shape. keeps_auto. Qed.

Lemma keeps_status_load_file fs file t :
  keeps exec_process_status (load_file fs file t).
Proof.
  unfold load_file. keeps_auto.
  all: apply keeps_status_save_or_check_shape.
Qed.

Lemma keeps_status_load fs file folder t :
  keeps exec_process_status (load fs file folder t).
Proof.
  unfold load. keeps_auto.
  all: apply keeps_status_load_file.
Qed.

Lemma keeps_status_oscillation roi plot :
  keeps exec_process_status (oscillation roi plot).
Proof. unfold oscillation. keeps_auto. Qed.

(* ================================================================== *)
(** * Stage flags and [load] *)
(* ================================================================== *)

(** Unfolds the monad so that a computation applied to a state reduces. *)
Ltac run :=
  unfold bind, ret, raise, get, modify, modify_role, when, lift_opt;
  simpl.

Lemma bind_outcome {A B} (c : M A) (k : A -> M B) s :
  bind c k s =
  match c s with
  | (Return a, s') => k a s'
  | (Raise e, s') => (Raise e, s')
  end.
Proof. reflexivity. Qed.

Lemma df_correction_flag force s :
  flag_df_correction (exec_process_status (snd (df_correction force s)))
  = true.
Proof.
  unfold df_correction. rewrite bind_outcome. unfold get at 1.
  destruct (negb force && flag_df_correction (exec_process_status s))%bool
    eqn:E.
  - simpl. apply andb_true_iff in E. tauto.
  - assert (K : keeps exec_process_status
                  (when (negb (is_empty (data (dict_image s))))
                     (__df_correction Sample) ;;
                   when (negb (is_empty (data (dict_ob s))))
                     (__df_correction Ob) ;;
                   ret PyNone)).
    { keeps_auto; apply keeps_status_df_correction_role. }
    rewrite bind_outcome. unfold modify at 1.
    rewrite K. reflexivity.
Qed.

Lemma load_blocked fs file folder t s :
  any_stage_run s = true ->
  load fs file folder t s = (Raise OperationNotAllowed, s).
Proof.
  intro H. unfold load. rewrite bind_outcome. unfold get at 1.
  unfold any_stage_run in H. rewrite H. reflexivity.
Qed.

(** [df_correction], [normalization] and [binning] set their flag as soon
    as they run, [crop] when it succeeds; [oscillation] never does. *)
Lemma normalization_flag roi force s :
  flag_normalization
    (exec_process_status (snd (normalization roi force s))) = true.
Proof.
  unfold normalization. rewrite bind_outcome. unfold get at 1.
  destruct (negb force && flag_normalization (exec_process_status s))%bool
    eqn:E.
  - simpl. apply andb_true_iff in E. tauto.
  - rewrite bind_outcome. unfold modify at 1.
    match goal with
    | |- context [snd (?c ?s1)] =>
        assert (K : keeps exec_process_status c)
    end.
    { keeps_auto. unfold __roi_fit_into_sample. keeps_auto. }
    rewrite K. reflexivity.
Qed.

Lemma keeps_status_binning_data bin t :
  keeps exec_process_status (__binning_data bin t).
Proof. unfold __binning_data. keeps_auto. Qed.

Lemma binning_flag z force s :
  flag_bin (exec_process_status (snd (binning (BinInt z) force s))) = true.
Proof.
  unfold binning. run.
  destruct (negb force && flag_bin (exec_process_status s))%bool eqn:E.
  - simpl. apply andb_true_iff in E. tauto.
  - destruct (is_empty (data (dict_image s))); [reflexivity |].
    destruct (is_empty (data (dict_ob s))); [reflexivity |].
    match goal with
    | |- context [__binning_data z Sample ?s1] =>
        pose proof (keeps_status_binning_data z Sample s1) as K1;
        destruct (__binning_data z Sample s1) as [[[] | e] s2]
    end; simpl in *; [| rewrite K1; reflexivity].
    pose proof (keeps_status_binning_data z Ob s2) as K2.
    destruct (__binning_data z Ob s2) as [[[] | e] s3]; simpl in *;
      rewrite K2, K1; reflexivity.
Qed.

Lemma crop_flag roi force s [s'] :
  crop roi force s = (Return PyTrue, s') ->
  flag_crop (exec_process_status s') = true.
Proof.
  unfold crop. run.
  destruct (is_empty (data (dict_image s)) || is_empty (data (dict_ob s)))%bool;
    [discriminate |].
  destruct roi; try discriminate.
  destruct (negb force && flag_crop (exec_process_status s))%bool;
    [discriminate |].
  intro H. inversion H. reflexivity.
Qed.

Lemma oscillation_no_flag roi plot s :
  exec_process_status (snd (oscillation roi plot s)) = exec_process_status s.
Proof. apply keeps_status_oscillation. Qed.

(** C8: for every pipeline state, after a call of [df_correction] (forced
    or not, returning or raising) a second call with [force = false]
    returns [None] and leaves the whole instance, and so all sample and
    ob frames, exactly as the first call left it. *)
Theorem df_correction_twice_is_noop force s :
  df_correction false (snd (df_correction force s))
  = (Return PyNone, snd (df_correction force s)).
Proof.
  pose proof (df_correction_flag force s) as H.
  unfold df_correction at 1. rewrite bind_outcome. unfold get at 1.
  rewrite H. reflexivity.
Qed.

Lemma with_status_same s :
  with_status (exec_process_status s) s = s.
Proof. destruct s; reflexivity. Qed.

(** C10: when the df stack is empty, a [df_correction] that runs returns
    [None], sets its flag and changes nothing else (no frame is touched);
    a later call without [force] is then a silent no-op. *)
Theorem df_correction_empty_df_sets_flag force s :
  data (dict_df s) = [] ->
  runs force (flag_df_correction (exec_process_status s)) ->
  let s' := with_status (set_flag_df_correction (exec_process_status s)) s in
  df_correction force s = (Return PyNone, s') /\
  flag_df_correction (exec_process_status s') = true /\
  data (dict_image s') = data (dict_image s) /\
  data (dict_ob s') = data (dict_ob s) /\
  df_correction false s' = (Return PyNone, s').
Proof.
  intros Hdf Hrun s'. unfold runs in Hrun.
  assert (Hrole : forall t s1, data (dict_df s1) = [] -> t <> Df ->
                               __df_correction t s1 = (Return tt, s1)).
  { intros t s1 H Ht. unfold __df_correction.
    destruct t; try congruence; run; rewrite H; reflexivity. }
  assert (H1 : df_correction force s = (Return PyNone, s')).
  { unfold df_correction. rewrite bind_outcome. unfold get at 1.
    rewrite Hrun. rewrite bind_outcome. unfold modify at 1. fold s'.
    assert (Hdf' : data (dict_df s') = []) by exact Hdf.
    rewrite bind_outcome.
    assert (Hw : forall b t, t <> Df ->
                   when b (__df_correction t) s' = (Return tt, s')).
    { intros [] t Ht; [apply Hrole; assumption | reflexivity]. }
    rewrite Hw by discriminate. rewrite bind_outcome.
    rewrite Hw by discriminate. reflexivity. }
  repeat split; try assumption; try reflexivity.
Qed.

(** The statement above at the instance holding one sample and one ob
    frame and no df frame. *)
Lemma df_correction_empty_df_sets_flag_witness :
  data (dict_df Demo.uniform_pair) = [] /\
  runs false
    (flag_df_correction (exec_process_status Demo.uniform_pair)) /\
  fst (df_correction false Demo.uniform_pair) = Return PyNone.
Proof.
  split; [reflexivity |]. split; [reflexivity |].
  rewrite (proj1 (@df_correction_empty_df_sets_flag false Demo.uniform_pair
                    eq_refl eq_refl)).
  reflexivity.
Defined.

Lemma any_stage_run_after_oscillation roi plot s :
  any_stage_run (snd (oscillation roi plot s)) = any_stage_run s.
Proof. unfold any_stage_run. rewrite oscillation_no_flag. reflexivity. Qed.

(** After [df_correction], [normalization], [binning] with an integer, or
    a successful [crop], [load] is refused. *)
Lemma load_after_flagged_stage fs file folder t s :
  (forall force,
     fst (load fs file folder t (snd (df_correction force s)))
     = Raise OperationNotAllowed) /\
  (forall roi force,
     fst (load fs file folder t (snd (normalization roi force s)))
     = Raise OperationNotAllowed) /\
  (forall z force,
     fst (load fs file folder t (snd (binning (BinInt z) force s)))
     = Raise OperationNotAllowed) /\
  (forall roi force s',
     crop roi force s = (Return PyTrue, s') ->
     fst (load fs file folder t s') = Raise OperationNotAllowed).
Proof.
  repeat split; intros.
  - rewrite load_blocked; [reflexivity |]. unfold any_stage_run.
    pose proof (df_correction_flag force s) as H.
    destruct (exec_process_status _); simpl in *. rewrite H. reflexivity.
  - rewrite load_blocked; [reflexivity |]. unfold any_stage_run.
    pose proof (normalization_flag roi force s) as H.
    destruct (exec_process_status _); simpl in *. rewrite H.
    apply orb_true_r.
  - rewrite load_blocked; [reflexivity |]. unfold any_stage_run.
    pose proof (binning_flag z force s) as H.
    destruct (exec_process_status _); simpl in *. rewrite H.
    rewrite !orb_true_r. reflexivity.
  - rewrite load_blocked; [reflexivity |]. unfold any_stage_run.
    pose proof (crop_flag roi force s H) as H'.
    destruct (exec_process_status _); simpl in *. rewrite H'.
    rewrite !orb_true_r. reflexivity.
Qed.

(** C3, on the code: once [oscillation] has executed (it returns and
    stores the two sequences of means), no stage flag is set, and a
    following [load] is accepted and appends a second sample frame. *)
Theorem load_after_oscillation_is_accepted :
  let s := snd (oscillation RoiNone false Demo.uniform_pair) in
  fst (oscillation RoiNone false Demo.uniform_pair) = Return PyNone /\
  oscillation_key (dict_image s) <> None /\
  any_stage_run s = false /\
  fst (load Demo.fs "a.tif" "" Sample s) = Return tt /\
  List.length (data (dict_image (snd (load Demo.fs "a.tif" "" Sample s)))) = 2.
Proof.
  repeat split; try reflexivity. discriminate.
Qed.

(** [crop] checks before it writes: when it raises, nothing changed. *)
Lemma crop_error_keeps_state roi force s e :
  fst (crop roi force s) = Raise e -> snd (crop roi force s) = s.
Proof.
  unfold crop. run.
  destruct (is_empty (data (dict_image s)) || is_empty (data (dict_ob s)))%bool;
    [reflexivity |].
  destruct roi; try reflexivity.
  destruct (negb force && flag_crop (exec_process_status s))%bool;
    simpl; [reflexivity | discriminate].
Qed.

(** C2, on the code: four failing calls that leave the instance changed.
    On a fresh instance [normalization] raises MissingData after having
    set its flag, and so does [binning]; [df_correction] with a df frame
    of another shape raises ShapeMismatch after having set its flag and
    cached the df value; and [load_file] of a 1x2 frame into a role
    holding a 1x1 frame raises ShapeMismatch after having appended both
    the frame and its file name. *)
Theorem failed_stage_leaves_its_mark :
  (fst (normalization RoiNone false init) = Raise MissingData /\
   flag_normalization (exec_process_status init) = false /\
   flag_normalization
     (exec_process_status (snd (normalization RoiNone false init))) = true) /\
  (fst (binning (BinInt 2) false init) = Raise MissingData /\
   flag_bin (exec_process_status init) = false /\
   flag_bin (exec_process_status (snd (binning (BinInt 2) false init)))
   = true) /\
  (let s := Demo.mismatched_df in
   let s' := snd (df_correction false s) in
   fst (df_correction false s) = Raise ShapeMismatch /\
   flag_df_correction (exec_process_status s) = false /\
   data_average (dict_df s) = None /\
   flag_df_correction (exec_process_status s') = true /\
   data_average (dict_df s') = Some (DfList [A2 [[Fin 1; Fin 2]]])) /\
  (let s := snd (load_file Demo.fs "b.tif" Sample Demo.sample_only) in
   fst (load_file Demo.fs "b.tif" Sample Demo.sample_only)
   = Raise ShapeMismatch /\
   data (dict_image Demo.sample_only) = [A2 [[Fin 2]]] /\
   file_name (dict_image Demo.sample_only) = ["a.tif"] /\
   data (dict_image s) = [A2 [[Fin 2]]; A2 [[Fin 1; Fin 2]]] /\
   file_name (dict_image s) = ["a.tif"; "b.tif"]).
Proof. repeat split. Qed.

(* ================================================================== *)
(** * Normalization, ROI checks and bin sizes *)
(* ================================================================== *)

Lemma is_empty_false {A} [l : list A] : l <> [] -> is_empty l = false.
Proof. destruct l; [congruence | reflexivity]. Qed.

Lemma set_role_same_data t s :
  set_role t (with_data (data (get_role t s)) (get_role t s)) s = s.
Proof. destruct t, s as [[] [] [] ? ?]; reflexivity. Qed.

Lemma roi_fit_spec r s d0 rest h w :
  data (dict_image s) = d0 :: rest ->
  np_shape d0 = [h; w] ->
  __roi_fit_into_sample r s =
  (Return (negb ((x0 r <? 0) || (x1 r >=? Z.of_nat w)
                 || ((y0 r <? 0) || (y1 r >=? Z.of_nat h)))%Z), s).
Proof.
  intros Hd Hs. unfold __roi_fit_into_sample. run. rewrite Hd. simpl.
  rewrite Hs. simpl.
  destruct ((x0 r <? 0) || (x1 r >=? Z.of_nat w))%Z%bool; simpl;
    [reflexivity |].
  destruct ((y0 r <? 0) || (y1 r >=? Z.of_nat h))%Z%bool; reflexivity.
Qed.

Lemma roi_out_of_bounds_iff r h w :
  ((x0 r <? 0) || (x1 r >=? Z.of_nat w)
   || ((y0 r <? 0) || (y1 r >=? Z.of_nat h)))%Z%bool = true <->
  (x0 r < 0 \/ Z.of_nat w <= x1 r \/ y0 r < 0 \/ Z.of_nat h <= y1 r)%Z.
Proof.
  rewrite !orb_true_iff, !Z.ltb_lt, !Z.geb_le. tauto.
Qed.

(** What [normalization] does once it runs on consistent stacks with an
    [ROI] object: either the ROI is refused, or every frame is divided by
    its own mean over the ROI window. *)
Lemma normalization_with_roi r force s d0 rest h w :
  runs force (flag_normalization (exec_process_status s)) ->
  data (dict_image s) = d0 :: rest ->
  np_shape d0 = [h; w] ->
  data (dict_ob s) <> [] ->
  List.length (file_name (dict_image s)) = List.length (file_name (dict_ob s)) ->
  data_loaded_have_matching_shape s = true ->
  let norm := fun f => np_div_scalar f (np_mean (roi_window r f)) in
  let s1 := with_status (set_flag_normalization (exec_process_status s)) s in
  normalization (RoiObj r) force s =
  if ((x0 r <? 0) || (x1 r >=? Z.of_nat w)
      || ((y0 r <? 0) || (y1 r >=? Z.of_nat h)))%Z%bool
  then (Raise InvalidROI, s1)
  else (Return PyTrue,
        set_role Ob (with_data (map norm (data (dict_ob s))) (dict_ob s))
          (set_role Sample
             (with_data (map norm (data (dict_image s))) (dict_image s))
             s1)).
Proof.
  intros Hrun Hd Hs Hob Hlen Hshape norm s1. unfold runs in Hrun.
  unfold normalization. rewrite bind_outcome. unfold get at 1.
  rewrite Hrun. rewrite bind_outcome. unfold modify at 1. fold s1.
  rewrite (is_empty_false Hob).
  rewrite is_empty_false by (rewrite Hd; discriminate).
  rewrite Hlen, Nat.eqb_refl, Hshape. cbv [negb].
  rewrite bind_outcome. unfold roi_truthy, when.
  rewrite bind_outcome.
  rewrite (@roi_fit_spec r s1 d0 rest h w Hd Hs).
  destruct ((x0 r <? 0) || (x1 r >=? Z.of_nat w)
            || ((y0 r <? 0) || (y1 r >=? Z.of_nat h)))%Z%bool;
    reflexivity.
Qed.



Lemma roi_fields_obj r s : roi_fields (RoiObj r) s = (Return r, s).
Proof. reflexivity. Qed.

Lemma crop_never_refuses_bounds r force s :
  fst (crop (RoiObj r) force s) <> Raise InvalidROI.
Proof.
  unfold crop. run.
  destruct (is_empty (data (dict_image s)) || is_empty (data (dict_ob s)))%bool;
    [discriminate |].
  destruct (negb force && flag_crop (exec_process_status s))%bool;
    discriminate.
Qed.

Lemma oscillation_never_refuses_bounds r plot s :
  fst (oscillation (RoiObj r) plot s) <> Raise InvalidROI.
Proof.
  unfold oscillation. run. destruct plot; simpl; [| discriminate].
  unfold first. destruct (data (dict_image s)); simpl; discriminate.
Qed.

(** C5, as amended: of the three ROI-consuming stages only
    [normalization] checks the bounds.  When it runs with an ROI object
    on consistent stacks it fails with InvalidROI exactly when [x0 < 0],
    [x1 >= width], [y0 < 0] or [y1 >= height] of the first sample frame;
    [crop] and [oscillation] never fail with InvalidROI for an ROI
    object, whatever its bounds. *)
Theorem roi_bounds_checked_by_normalization_only r force s d0 rest h w :
  runs force (flag_normalization (exec_process_status s)) ->
  data (dict_image s) = d0 :: rest ->
  np_shape d0 = [h; w] ->
  data (dict_ob s) <> [] ->
  List.length (file_name (dict_image s)) = List.length (file_name (dict_ob s)) ->
  data_loaded_have_matching_shape s = true ->
  (fst (normalization (RoiObj r) force s) = Raise InvalidROI <->
   (x0 r < 0 \/ Z.of_nat w <= x1 r \/ y0 r < 0 \/ Z.of_nat h <= y1 r)%Z) /\
  (forall force', fst (crop (RoiObj r) force' s) <> Raise InvalidROI) /\
  (forall plot, fst (oscillation (RoiObj r) plot s) <> Raise InvalidROI).
Proof.
  intros Hrun Hd Hs Hob Hlen Hshape.
  split; [| split; intros; [apply crop_never_refuses_bounds
                           | apply oscillation_never_refuses_bounds]].
  rewrite (@normalization_with_roi r force s d0 rest h w) by assumption.
  rewrite <- roi_out_of_bounds_iff.
  destruct ((x0 r <? 0) || (x1 r >=? Z.of_nat w)
            || ((y0 r <? 0) || (y1 r >=? Z.of_nat h)))%Z%bool; simpl.
  - tauto.
  - split; discriminate.
Qed.

(** The statement above on 1x1 frames with the ROI (0, 0, 1, 0). *)
Lemma roi_bounds_checked_by_normalization_only_witness :
  fst (normalization (RoiObj (mkROI 0 0 1 0)) false Demo.uniform_pair)
  = Raise InvalidROI.
Proof.
  refine (proj2 (proj1 (@roi_bounds_checked_by_normalization_only
                          (mkROI 0 0 1 0) false Demo.uniform_pair
                          (A2 [[Fin 2]]) [] 1 1 _ _ _ _ _ _)) _).
  - reflexivity.
  - reflexivity.
  - reflexivity.
  - discriminate.
  - reflexivity.
  - reflexivity.
  - simpl. lia.
Defined.

(** C5 as stated fails: on 1x1 frames, [crop] and [oscillation] with the
    ROI (0, 0, 5, 5), whose [x1] and [y1] exceed the frame, return
    normally instead of raising InvalidROI. *)
Lemma crop_accepts_roi_beyond_frame :
  let roi := RoiObj (mkROI 0 0 5 5) in
  np_shape (A2 [[Fin 2]]) = [1; 1] /\
  data (dict_image Demo.uniform_pair) = [A2 [[Fin 2]]] /\
  fst (crop roi false Demo.uniform_pair) = Return PyTrue /\
  fst (oscillation roi false Demo.uniform_pair) = Return PyNone.
Proof. repeat split. Qed.

(* ------------------------------------------------------------------ *)

Lemma reshape4_negative_bin d1 b d3 a :
  (b < 0)%Z -> reshape4 d1 b d3 b a = None.
Proof.
  intro H. unfold reshape4. apply Z.ltb_lt in H. rewrite H.
  rewrite !orb_true_r. reflexivity.
Qed.

Lemma binning_data_nonpositive z t s :
  (z <= 0)%Z -> data (get_role t s) <> [] ->
  exists e, __binning_data z t s = (Raise e, s).
Proof.
  intros Hz Hd. unfold __binning_data. rewrite bind_outcome.
  unfold get at 1. rewrite bind_outcome.
  destruct (data (get_role t s)) as [| d0 rest] eqn:E; [congruence |].
  unfold first, ret. rewrite bind_outcome.
  destruct (np_shape d0) as [| h [| w [| ? ?]]]; unfold unpack2, raise, ret;
    try (eexists; reflexivity).
  destruct (z =? 0)%Z eqn:Ez; [eexists; reflexivity |].
  apply Z.eqb_neq in Ez. rewrite bind_outcome.
  unfold map_opt, rebin_frame.
  rewrite reshape4_negative_bin by lia.
  eexists. reflexivity.
Qed.

(** C6, as amended: [binning] fails with InvalidArgument, changing
    nothing, when the bin size is [nan] or infinite; a finite non-integer
    bin size is truncated toward zero and handled exactly as that
    integer; and for a zero or negative integer a binning that runs
    raises an error and leaves the sample and ob data as they were. *)
Theorem binning_bin_size_handling force s z :
  (z <= 0)%Z ->
  runs force (flag_bin (exec_process_status s)) ->
  (binning BinNaN force s = (Raise InvalidArgument, s) /\
   binning BinInf force s = (Raise InvalidArgument, s)) /\
  (forall n d, binning (BinFloat n d) force s
               = binning (BinInt (Z.quot n (Z.pos d))) force s) /\
  (exists e, fst (binning (BinInt z) force s) = Raise e) /\
  data (dict_image (snd (binning (BinInt z) force s))) = data (dict_image s) /\
  data (dict_ob (snd (binning (BinInt z) force s))) = data (dict_ob s).
Proof.
  intros Hz Hrun. unfold runs in Hrun.
  split; [split; reflexivity |]. split; [reflexivity |].
  unfold binning. run. rewrite Hrun.
  set (s1 := with_status _ s).
  destruct (is_empty (data (dict_image s))) eqn:E1;
    [repeat split; eexists; reflexivity |].
  destruct (is_empty (data (dict_ob s))) eqn:E2;
    [repeat split; eexists; reflexivity |].
  destruct (@binning_data_nonpositive z Sample s1 Hz) as [e He].
  { change (data (get_role Sample s1)) with (data (dict_image s)).
    intro K. rewrite K in E1. discriminate. }
  rewrite He. repeat split. eexists; reflexivity.
Qed.

(** The statement above on 2x2 frames with bin size 0. *)
Lemma binning_bin_size_handling_witness :
  exists e, fst (binning (BinInt 0) false Demo.square_pair) = Raise e.
Proof.
  refine (proj1 (proj2 (proj2 (@binning_bin_size_handling
                                 false Demo.square_pair 0%Z _ _)))).
  - lia.
  - reflexivity.
Defined.

(** C6 as stated fails: with the non-integer bin size 5/2 on 2x2 frames,
    [binning] returns normally and replaces the sample frame by a 1x1
    frame. *)
Lemma binning_truncates_fractional_bin_size :
  let s' := snd (binning (BinFloat 5 2) false Demo.square_pair) in
  fst (binning (BinFloat 5 2) false Demo.square_pair) = Return PyNone /\
  data (dict_image Demo.square_pair)
  = [A2 [[Fin 1; Fin 2]; [Fin 3; Fin 4]]] /\
  map np_shape (data (dict_image s')) = [[1; 1]] /\
  data (dict_image s') <> data (dict_image Demo.square_pair).
Proof.
  repeat split.
  intro H. apply (f_equal (map np_shape)) in H. discriminate H.
Qed.

(* ================================================================== *)
(** * Interferometry maps of identical reductions *)
(* ================================================================== *)




Lemma map2_length {A B C} (f : A -> B -> C) l1 l2 :
  List.length (map2 f l1 l2) = Nat.min (List.length l1) (List.length l2).
Proof. unfold map2. rewrite length_map, length_combine. reflexivity. Qed.


Lemma nth_map2 {A B C} (f : A -> B -> C) da db dc :
  forall l1 l2 n,
    n < List.length l1 -> n < List.length l2 ->
    nth n (map2 f l1 l2) dc = f (nth n l1 da) (nth n l2 db).
Proof.
  induction l1 as [| a l1 IH]; intros [| b l2] [| n] H1 H2;
    simpl in *; try lia; [reflexivity |].
  apply IH; lia.
Qed.





(** ** Facts on the extended reals *)


Lemma xdiv_fin a [b] : b <> 0%R -> xdiv (Fin a) (Fin b) = Fin (a / b).
Proof.
  intro H. unfold xdiv. destruct (Req_EM_T b 0) as [E | _];
    [contradiction | reflexivity].
Qed.







(* ================================================================== *)
(** * Cropping, binning and the stored shape *)
(* ================================================================== *)

(** ** Slices *)

Lemma slice_bound_in_range n i :
  (0 <= i <= n)%Z -> slice_bound n i = i.
Proof.
  intro H. unfold slice_bound.
  destruct (i <? 0)%Z eqn:E; [apply Z.ltb_lt in E; lia | lia].
Qed.

Lemma py_slice_length {A} (lo hi : Z) (l : list A) :
  (0 <= lo <= hi)%Z -> (hi <= Z.of_nat (List.length l))%Z ->
  List.length (py_slice lo hi l) = Z.to_nat (hi - lo).
Proof.
  intros H1 H2. unfold py_slice.
  rewrite !slice_bound_in_range by lia.
  rewrite length_firstn, length_skipn. lia.
Qed.

Lemma in_firstn {A} (a : A) : forall n l, In a (firstn n l) -> In a l.
Proof.
  induction n as [| n IH]; intros [| b l] H; simpl in *; try contradiction.
  destruct H as [H | H]; [left; exact H | right; apply IH; exact H].
Qed.

Lemma in_skipn {A} (a : A) : forall n l, In a (skipn n l) -> In a l.
Proof.
  induction n as [| n IH]; intros [| b l] H; simpl in *;
    try contradiction; try exact H.
  right. apply IH. exact H.
Qed.

Lemma py_slice_incl {A} (lo hi : Z) (l : list A) a :
  In a (py_slice lo hi l) -> In a l.
Proof.
  unfold py_slice. intro H.
  apply in_firstn in H. apply in_skipn in H. exact H.
Qed.

Lemma sliced_frame y0 y1 x0 x1 h w a :
  is_frame h w a ->
  (0 <= y0 <= y1)%Z -> (y1 <= Z.of_nat h)%Z ->
  (0 <= x0 <= x1)%Z -> (x1 <= Z.of_nat w)%Z ->
  is_frame (Z.to_nat (y1 - y0)) (Z.to_nat (x1 - x0))
    (np_slice2 y0 y1 x0 x1 a).
Proof.
  intros (rows & -> & Hh & Hw) Hy Hy' Hx Hx'.
  exists (map (py_slice x0 x1) (py_slice y0 y1 rows)).
  split; [reflexivity |]. split.
  - rewrite length_map. apply py_slice_length; lia.
  - rewrite Forall_map, Forall_forall. intros row Hin.
    apply py_slice_incl in Hin. rewrite Forall_forall in Hw.
    apply py_slice_length; [lia |]. rewrite (Hw row Hin). lia.
Qed.

(** ** Chunks *)

Lemma chunk_fuel_length {A} (n : nat) :
  0 < n ->
  forall k fuel (l : list A),
    List.length l = k * n -> k <= fuel ->
    List.length (chunk_fuel fuel n l) = k.
Proof.
  intros Hn. induction k as [| k IH]; intros fuel l Hl Hf.
  - destruct l; [| discriminate]. destruct fuel; reflexivity.
  - destruct fuel as [| fuel]; [lia |].
    destruct l as [| a l]; [simpl in Hl; lia |].
    cbn [chunk_fuel List.length]. f_equal. apply IH; [| lia].
    rewrite length_skipn, Hl. simpl. lia.
Qed.

Lemma chunk_length {A} (n k : nat) (l : list A) :
  0 < n -> List.length l = k * n -> List.length (chunk n l) = k.
Proof.
  intros Hn Hl. unfold chunk. apply chunk_fuel_length; [exact Hn | exact Hl |].
  rewrite Hl. nia.
Qed.

Lemma concat_length_uniform {A} [w : nat] [l : list (list A)] :
  Forall (fun r => List.length r = w) l ->
  List.length (concat l) = List.length l * w.
Proof.
  induction 1 as [| r l Hr _ IH]; [reflexivity |].
  simpl. rewrite length_app, IH, Hr. reflexivity.
Qed.

Lemma frame_flat_length [h w a] :
  is_frame h w a -> List.length (np_flat a) = h * w.
Proof.
  intros (rows & -> & Hh & Hw). simpl.
  rewrite (concat_length_uniform Hw), Hh. reflexivity.
Qed.

Lemma frame_shape [h w a] :
  is_frame h w a -> 0 < h -> np_shape a = [h; w].
Proof.
  intros (rows & -> & Hh & Hw) Hpos. simpl. rewrite Hh. f_equal. f_equal.
  destruct rows as [| r rows]; [simpl in Hh; lia |].
  simpl. exact (Forall_inv Hw).
Qed.

Lemma binned_is_frame n k (r : list (list (list (list xreal)))) :
  List.length r = k ->
  is_frame k n (A2 (mean_axis1 n (mean_axis3 r))).
Proof.
  intro H. eexists. split; [reflexivity |]. split.
  - unfold mean_axis1, mean_axis3. rewrite !length_map. exact H.
  - unfold mean_axis1. rewrite Forall_map, Forall_forall. intros x _.
    unfold mean_cols. rewrite length_map, length_seq. reflexivity.
Qed.

(** Binning one [h x w] frame by [b] gives an [(h/b) x (w/b)] frame. *)
Lemma rebin_frame_shape (b : Z) h w a :
  is_frame h w a ->
  (1 <= b)%Z -> (b <= Z.of_nat h)%Z -> (b <= Z.of_nat w)%Z ->
  let nh := (Z.of_nat h / b)%Z in
  let nw := (Z.of_nat w / b)%Z in
  exists a',
    rebin_frame b (nh * b) (nw * b) nh nw a = Some a' /\
    is_frame (Z.to_nat nh) (Z.to_nat nw) a'.
Proof.
  intros Ha Hb Hbh Hbw nh nw.
  assert (Hnh : (1 <= nh)%Z).
  { apply Z.div_le_lower_bound; lia. }
  assert (Hnw : (1 <= nw)%Z).
  { apply Z.div_le_lower_bound; lia. }
  assert (Hnh' : (nh * b <= Z.of_nat h)%Z).
  { rewrite Z.mul_comm. apply Z.mul_div_le. lia. }
  assert (Hnw' : (nw * b <= Z.of_nat w)%Z).
  { rewrite Z.mul_comm. apply Z.mul_div_le. lia. }
  assert (Hs : is_frame (Z.to_nat (nh * b - 0)) (Z.to_nat (nw * b - 0))
                 (np_slice2 0 (nh * b) 0 (nw * b) a)).
  { apply (@sliced_frame 0 (nh * b) 0 (nw * b) h w a Ha)%Z; nia. }
  pose proof (frame_flat_length Hs) as Hlen.
  unfold rebin_frame, reshape4.
  replace ((nh <? 0) || (b <? 0) || (nw <? 0) || (b <? 0))%Z%bool with false.
  2:{ symmetry. rewrite !orb_false_iff, !Z.ltb_ge. lia. }
  replace (Z.of_nat (List.length (np_flat (np_slice2 0 (nh * b) 0 (nw * b) a)))
           =? nh * b * nw * b)%Z with true.
  2:{ symmetry. apply Z.eqb_eq. rewrite Hlen. nia. }
  cbv [negb]. eexists. split; [reflexivity |].
  apply binned_is_frame.
  apply chunk_length; [lia |].
  apply chunk_length; [lia |].
  rewrite <- Nat.mul_assoc.
  replace (Z.to_nat nh * (Z.to_nat b * Z.to_nat nw))
    with (Z.to_nat nh * Z.to_nat b * Z.to_nat nw) by lia.
  apply chunk_length; [lia |].
  rewrite Hlen. nia.
Qed.



Lemma crop_result r [force s] :
  runs force (flag_crop (exec_process_status s)) ->
  data (dict_image s) <> [] -> data (dict_ob s) <> [] ->
  crop (RoiObj r) force s =
  (Return PyTrue,
   set_role Ob (with_data (map (roi_window r) (data (dict_ob s))) (dict_ob s))
     (set_role Sample
        (with_data (map (roi_window r) (data (dict_image s))) (dict_image s))
        (with_status (set_flag_crop (exec_process_status s)) s))).
Proof.
  intros Hrun Hs Ho. unfold runs in Hrun. unfold crop.
  rewrite bind_outcome. unfold get at 1.
  rewrite (is_empty_false Hs), (is_empty_false Ho). cbv [orb].
  rewrite Hrun. reflexivity.
Qed.

Lemma shape_set_role_data t t' v s :
  shape (get_role t (set_role t' (with_data v (get_role t' s)) s))
  = shape (get_role t s).
Proof. destruct t, t'; reflexivity. Qed.





(* ================================================================== *)
(** * Normalization of uniform frames *)
(* ================================================================== *)









(* ================================================================== *)
(** * The harmonic reduction, pixel by pixel *)
(* ================================================================== *)

Lemma nth_map_lt {A B} (f : A -> B) (l : list A) j d d' :
  j < List.length l -> nth j (map f l) d' = f (nth j l d).
Proof.
  intro H. rewrite (nth_indep _ d' (f d)) by (rewrite length_map; exact H).
  apply map_nth.
Qed.

Lemma nth_map_seq {B} (f : nat -> B) m j d :
  j < m -> nth j (map f (seq 0 m)) d = f j.
Proof.
  intro H. rewrite (nth_map_lt f (seq 0 m) j 0 d) by (rewrite length_seq; exact H).
  rewrite seq_nth by exact H. reflexivity.
Qed.

(** ** Row-major layout *)

Lemma nth_concat_uniform {A} (w : nat) (d : A) :
  forall (l : list (list A)) y x,
    Forall (fun r => List.length r = w) l ->
    y < List.length l -> x < w ->
    nth (y * w + x) (concat l) d = nth x (nth y l []) d.
Proof.
  induction l as [| r l IH]; intros y x Hl Hy Hx; [simpl in Hy; lia |].
  pose proof (Forall_inv Hl) as Hr. pose proof (Forall_inv_tail Hl) as Hl'.
  cbv beta in Hr.
  destruct y as [| y]; simpl.
  - apply app_nth1. lia.
  - rewrite app_nth2 by lia.
    replace (w + y * w + x - List.length r) with (y * w + x) by lia.
    apply IH; [exact Hl' | simpl in Hy; lia | exact Hx].
Qed.

Lemma chunk_fuel_nth {A} (w : nat) :
  0 < w ->
  forall k fuel (l : list A) y,
    List.length l = k * w -> k <= fuel -> y < k ->
    nth y (chunk_fuel fuel w l) [] = firstn w (skipn (y * w) l).
Proof.
  intro Hw. induction k as [| k IH]; intros fuel l y Hl Hf Hy; [lia |].
  destruct fuel as [| fuel]; [lia |].
  destruct l as [| a l]; [simpl in Hl; lia |].
  cbn [chunk_fuel]. destruct y as [| y]; [reflexivity |].
  cbn [nth]. rewrite (IH fuel (skipn w (a :: l)) y); [| | lia | lia].
  - rewrite skipn_skipn. f_equal. f_equal. lia.
  - rewrite length_skipn, Hl. simpl. lia.
Qed.

Lemma chunk_entry [w h : nat] [l : list xreal] [y x] :
  0 < w -> List.length l = h * w -> y < h -> x < w ->
  entry y x (chunk w l) = nth (y * w + x) l NaN.
Proof.
  intros Hw Hl Hy Hx. unfold entry, chunk.
  rewrite (@chunk_fuel_nth _ w Hw h) by (try assumption; rewrite Hl; nia).
  rewrite nth_firstn.
  replace (x <? w) with true by (symmetry; apply Nat.ltb_lt; exact Hx).
  rewrite nth_skipn. reflexivity.
Qed.

Lemma chunk_fuel_rows {A} (w : nat) :
  0 < w ->
  forall k fuel (l : list A),
    List.length l = k * w -> k <= fuel ->
    Forall (fun r => List.length r = w) (chunk_fuel fuel w l).
Proof.
  intro Hw. induction k as [| k IH]; intros fuel l Hl Hf.
  - destruct l; [| discriminate]. destruct fuel; constructor.
  - destruct fuel as [| fuel]; [lia |].
    destruct l as [| a l]; [simpl in Hl; lia |].
    cbn [chunk_fuel]. constructor.
    + rewrite length_firstn, Hl. simpl. lia.
    + apply IH; [| lia]. rewrite length_skipn, Hl. simpl. lia.
Qed.

Lemma chunk_shape [w h : nat] [l : list xreal] :
  0 < w -> List.length l = h * w -> has_shape h w (chunk w l).
Proof.
  intros Hw Hl. split.
  - apply chunk_length; assumption.
  - unfold chunk. apply (@chunk_fuel_rows _ w Hw h); [exact Hl |].
    rewrite Hl. nia.
Qed.

(** ** A stack of frames as one array *)

Lemma frames_as_planes [h w] :
  forall [l], Forall (is_frame h w) l ->
            exists planes, l = map A2 planes /\ Forall (has_shape h w) planes.
Proof.
  induction 1 as [| a l (rows & -> & Hh & Hw) _ (planes & -> & Hp)].
  - exists []. split; [reflexivity | constructor].
  - exists (rows :: planes). split; [reflexivity |].
    constructor; [split; assumption | exact Hp].
Qed.

Lemma stack_rows_planes planes : stack_rows (map A2 planes) = Some planes.
Proof.
  induction planes as [| p planes IH]; [reflexivity |].
  simpl. rewrite IH. reflexivity.
Qed.

Lemma shape_eqb_refl s : shape_eqb s s = true.
Proof.
  unfold shape_eqb. destruct (list_eq_dec Nat.eq_dec s s);
    [reflexivity | congruence].
Qed.

Lemma same_shape_planes [h w planes] :
  0 < h -> Forall (has_shape h w) planes -> same_shape (map A2 planes) = true.
Proof.
  intros Hh Hp. destruct planes as [| p planes]; [reflexivity |].
  cbn [map same_shape]. apply forallb_forall. intros a Hin.
  apply in_map_iff in Hin. destruct Hin as (p' & <- & Hin).
  rewrite Forall_forall in Hp.
  assert (E : forall p0, In p0 (p :: planes) -> np_shape (A2 p0) = [h; w]).
  { intros p0 H0. apply frame_shape; [| exact Hh].
    destruct (Hp p0 H0) as [H1 H2]. exists p0. auto. }
  rewrite (E p') by (right; exact Hin).
  rewrite (E p) by (left; reflexivity).
  apply shape_eqb_refl.
Qed.

Lemma stack_shape_planes [h w planes] s :
  0 < h -> planes <> [] -> Forall (has_shape h w) planes ->
  stack_shape (map A2 planes) s = (Return (List.length planes, h, w), s).
Proof.
  intros Hh Hne Hp. unfold stack_shape, as_array.
  rewrite (same_shape_planes Hh Hp), stack_rows_planes.
  destruct planes as [| p planes]; [congruence |].
  cbn [map option_map np_shape hd].
  destruct (Forall_inv Hp) as [H1 H2]. rewrite H1.
  destruct p as [| r p]; [simpl in H1; lia |].
  cbn [hd]. rewrite (Forall_inv H2). reflexivity.
Qed.

(** ** Matrix products *)

Lemma matmul_length a b : List.length (matmul a b) = List.length a.
Proof. unfold matmul. apply length_map. Qed.

Lemma matmul_row [a] b [k] :
  k < List.length a ->
  nth_error (matmul a b) k
  = Some (map (fun j => dot (nth k a []) (column j b)) (seq 0 (ncols b))).
Proof.
  intro H. unfold matmul.
  rewrite nth_error_map.
  rewrite (nth_error_nth' a [] H). reflexivity.
Qed.

Lemma column_of_stack [h w planes y x] :
  Forall (has_shape h w) planes -> y < h -> x < w ->
  column (y * w + x) (map np_flat (map A2 planes))
  = map (pixel y x) (map A2 planes).
Proof.
  intros Hp Hy Hx. unfold column. rewrite !map_map.
  apply map_ext_in. intros p Hin. rewrite Forall_forall in Hp.
  destruct (Hp p Hin) as [H1 H2]. cbn [np_flat pixel]. unfold entry.
  apply nth_concat_uniform; [exact H2 | lia | exact Hx].
Qed.

Lemma ncols_of_stack [h w planes] :
  planes <> [] -> Forall (has_shape h w) planes ->
  ncols (map np_flat (map A2 planes)) = h * w.
Proof.
  intros Hne Hp. destruct planes as [| p planes]; [congruence |].
  unfold ncols. cbn [map hd np_flat].
  destruct (Forall_inv Hp) as [H1 H2].
  rewrite (concat_length_uniform H2), H1. reflexivity.
Qed.

Lemma xdiv_nan_r a : xdiv a NaN = NaN.
Proof. destruct a; reflexivity. Qed.

Lemma step_angle_finite n i q :
  2 <= n ->
  step_angle n i (Fin q) = Fin (2 * PI * INR i * q / (INR n - 1))%R.
Proof.
  intro Hn. unfold step_angle, of_nat, xmul.
  rewrite minus_IZR, <- INR_IZR_INZ.
  apply xdiv_fin.
  assert (H : (2 <= INR n)%R) by (apply (le_INR 2 n); exact Hn).
  lra.
Qed.

Lemma design_matrix_rows n q i :
  2 <= n -> i < n ->
  nth i (design_matrix n (Fin q)) [] =
  [Fin 1;
   Fin (cos (2 * PI * INR i * q / (INR n - 1)));
   Fin (sin (2 * PI * INR i * q / (INR n - 1)))]%R.
Proof.
  intros Hn Hi. unfold design_matrix. rewrite nth_map_seq by exact Hi.
  rewrite step_angle_finite by exact Hn. reflexivity.
Qed.

(** C4: for every stack of [n >= 3] frames of shape [h x w], the harmonic
    reduction builds the [n x 3] design matrix whose row [i] is
    [1, cos(2 pi i p/(n-1)), sin(2 pi i p/(n-1))], and applies
    [G = (B^T B)^-1 B^T] to the reshaped data: unless the inverse itself
    fails, it returns three [h x w] maps holding, at every pixel, the
    offset coefficient, the amplitude [sqrt(c^2 + s^2)] and the phase
    [arctan(s / c)], the phase being [nan] wherever the cosine
    coefficient [c] equals 0.  No other error is raised. *)
Theorem harmonic_reduction_per_pixel
        (inv : matrix -> option matrix) t (q : R) s n h w :
  List.length (data (get_role t s)) = n -> 3 <= n ->
  Forall (is_frame h w) (data (get_role t s)) ->
  0 < h -> 0 < w ->
  let frames := data (get_role t s) in
  let B := design_matrix n (Fin q) in
  List.length B = n /\
  (forall i, i < n ->
     nth i B [] =
     [Fin 1;
      Fin (cos (2 * PI * INR i * q / (INR n - 1)));
      Fin (sin (2 * PI * INR i * q / (INR n - 1)))]%R) /\
  match inv (matmul (transpose B) B) with
  | None =>
      _create_reduction_matrix inv t (Fin q) s = (Raise LinAlgError, s)
  | Some Minv =>
      List.length Minv = 3 ->
      let G := matmul Minv (transpose B) in
      exists red,
        _create_reduction_matrix inv t (Fin q) s = (Return red, s) /\
        has_shape h w (offset red) /\
        has_shape h w (amplitude red) /\
        has_shape h w (phase red) /\
        forall y x, y < h -> x < w ->
          let c := harmonic_coefficient G 1 frames y x in
          let sn := harmonic_coefficient G 2 frames y x in
          entry y x (offset red) = harmonic_coefficient G 0 frames y x /\
          entry y x (amplitude red)
          = xsqrt (xadd (xsquare c) (xsquare sn)) /\
          entry y x (phase red)
          = (if xeqb c (Fin 0) then NaN else xarctan (xdiv sn c))
  end.
Proof.
  intros Hlen Hn Hf Hh Hw frames B.
  split; [unfold B, design_matrix; rewrite length_map, length_seq;
          reflexivity |].
  split; [intros i Hi; apply design_matrix_rows; lia |].
  destruct (frames_as_planes Hf) as (planes & Ed & Hp).
  assert (Hnp : List.length planes = n).
  { rewrite <- Hlen, Ed, length_map. reflexivity. }
  assert (Hne : planes <> []).
  { intro K. rewrite K in Hnp. simpl in Hnp. lia. }
  assert (Hpre : _create_reduction_matrix inv t (Fin q) s =
                 match inv (matmul (transpose B) B) with
                 | None => (Raise LinAlgError, s)
                 | Some Minv =>
                     let A := matmul (matmul Minv (transpose B))
                                (map np_flat (map A2 planes)) in
                     (offset <- row 0 A ;;
                      absolute_amplitude <- row 1 A ;;
                      absolute_phase <- row 2 A ;;
                      ret {| offset := chunk w offset;
                             amplitude :=
                               chunk w
                                 (map xsqrt
                                    (map2 xadd
                                       (map xsquare absolute_amplitude)
                                       (map xsquare absolute_phase)));
                             phase :=
                               chunk w
                                 (map xarctan
                                    (map2 xdiv absolute_phase
                                       (zero_to_nan absolute_amplitude)))
                          |}) s
                 end).
  { unfold _create_reduction_matrix. rewrite bind_outcome. unfold get at 1.
    subst frames. rewrite Ed.
    rewrite bind_outcome, (stack_shape_planes s Hh Hne Hp).
    change (@List.length matrix planes) with (List.length planes).
    rewrite Hnp.
    fold B. unfold reduction_operator. rewrite !bind_outcome.
    destruct (inv (matmul (transpose B) B)); reflexivity. }
  rewrite Hpre. clear Hpre. subst frames. rewrite Ed.
  destruct (inv (matmul (transpose B) B)) as [Minv |];
    [| reflexivity].
  intros HM G. cbv zeta. fold G.
  set (D := map np_flat (map A2 planes)).
  assert (HG : List.length G = 3)
    by (unfold G; rewrite matmul_length; exact HM).
  assert (Hcols : ncols D = h * w) by (apply (ncols_of_stack Hne Hp)).
  set (coef := fun k =>
         map (fun j => dot (nth k G []) (column j D)) (seq 0 (h * w))).
  assert (Hrow : forall k s0, k < 3 ->
            row k (matmul G D) s0 = (Return (coef k), s0)).
  { intros k s0 Hk. unfold row.
    rewrite (matmul_row D) by (rewrite HG; exact Hk).
    rewrite Hcols. reflexivity. }
  rewrite bind_outcome, Hrow by lia.
  rewrite bind_outcome, Hrow by lia.
  rewrite bind_outcome, Hrow by lia.
  unfold ret.
  assert (Lc : forall k, List.length (coef k) = h * w).
  { intro k. unfold coef. rewrite length_map, length_seq. reflexivity. }
  assert (Hcoef : forall k y x, y < h -> x < w ->
            nth (y * w + x) (coef k) NaN
            = harmonic_coefficient G k (map A2 planes) y x).
  { intros k y x Hy Hx. unfold coef.
    rewrite nth_map_seq by nia.
    unfold harmonic_coefficient, D.
    rewrite (column_of_stack Hp Hy Hx). reflexivity. }
  eexists. split; [reflexivity |]. cbn [offset amplitude phase].
  assert (La : List.length
                 (map xsqrt (map2 xadd (map xsquare (coef 1))
                                       (map xsquare (coef 2)))) = h * w).
  { rewrite length_map, map2_length, !length_map, !Lc. lia. }
  assert (Lp : List.length
                 (map xarctan (map2 xdiv (coef 2) (zero_to_nan (coef 1))))
               = h * w).
  { rewrite length_map, map2_length. unfold zero_to_nan.
    rewrite length_map, !Lc. lia. }
  split; [apply chunk_shape; [exact Hw | apply Lc] |].
  split; [apply chunk_shape; [exact Hw | exact La] |].
  split; [apply chunk_shape; [exact Hw | exact Lp] |].
  intros y x Hy Hx.
  assert (Hj : y * w + x < h * w) by nia.
  rewrite (chunk_entry Hw (Lc 0) Hy Hx).
  rewrite (chunk_entry Hw La Hy Hx).
  rewrite (chunk_entry Hw Lp Hy Hx).
  split; [apply Hcoef; assumption |].
  split.
  - rewrite (nth_map_lt xsqrt _ _ NaN NaN)
      by (rewrite map2_length, !length_map, !Lc; lia).
    rewrite (nth_map2 xadd NaN NaN NaN)
      by (rewrite length_map, Lc; exact Hj).
    rewrite !(nth_map_lt xsquare _ _ NaN NaN) by (rewrite Lc; exact Hj).
    rewrite !Hcoef by assumption. reflexivity.
  - rewrite (nth_map_lt xarctan _ _ NaN NaN)
      by (rewrite map2_length; unfold zero_to_nan;
          rewrite length_map, !Lc; lia).
    rewrite (nth_map2 xdiv NaN NaN NaN);
      [| rewrite Lc; exact Hj
       | unfold zero_to_nan; rewrite length_map, Lc; exact Hj].
    unfold zero_to_nan.
    rewrite (nth_map_lt _ _ _ NaN NaN) by (rewrite Lc; exact Hj).
    rewrite !Hcoef by assumption.
    destruct (xeqb _ (Fin 0)); [| reflexivity].
    rewrite xdiv_nan_r. reflexivity.
Qed.

(** The statement above on three 1x1 frames. *)
Lemma harmonic_reduction_per_pixel_witness :
  exists red,
    _create_reduction_matrix Demo.unit_inverse Sample (Fin 1) Demo.three_steps
    = (Return red, Demo.three_steps) /\
    has_shape 1 1 (phase red).
Proof.
  assert (fr : is_frame 1 1 (A2 [[Fin 2]])).
  { exists [[Fin 2]]. split; [reflexivity |].
    split; [reflexivity | repeat constructor]. }
  assert (F : Forall (is_frame 1 1) (data (get_role Sample Demo.three_steps))).
  { exact (Forall_cons _ fr (Forall_cons _ fr
             (Forall_cons _ fr (Forall_nil _)))). }
  destruct (@harmonic_reduction_per_pixel Demo.unit_inverse Sample 1%R
              Demo.three_steps 3 1 1 eq_refl (le_n 3) F
              Nat.lt_0_1 Nat.lt_0_1) as (_ & _ & H).
  destruct (H eq_refl) as (red & E & _ & _ & Sp & _).
  exists red. split; [exact E | exact Sp].
Defined.

(* ================================================================== *)
(** * The model on small arrays *)
(* ================================================================== *)

(** Cropping a 4x4 frame by the ROI (1, 1, 2, 2) keeps rows 1..2 and
    columns 1..2; an ROI reaching beyond the frame is clipped. *)
Example crop_inner_block :
  roi_window (mkROI 1 1 2 2) Demo.ramp
  = A2 [[Fin 11; Fin 12]; [Fin 21; Fin 22]].
Proof. reflexivity. Qed.

Example crop_clipped_block :
  roi_window (mkROI 2 3 7 9) Demo.ramp = A2 [[Fin 32; Fin 33]].
Proof. reflexivity. Qed.

(** Binning the 4x4 frame by 2 gives a 2x2 frame, each value the mean of
    the two row means of its block; binning by 3 drops the last row and
    column. *)
Example binning_blocks :
  rebin_frame 2 4 4 2 2 Demo.ramp
  = Some (A2 [[xmean [xmean [Fin 0; Fin 1]; xmean [Fin 10; Fin 11]];
               xmean [xmean [Fin 2; Fin 3]; xmean [Fin 12; Fin 13]]];
              [xmean [xmean [Fin 20; Fin 21]; xmean [Fin 30; Fin 31]];
               xmean [xmean [Fin 22; Fin 23]; xmean [Fin 32; Fin 33]]]]).
Proof. reflexivity. Qed.

Example binning_drops_incomplete_bins :
  option_map np_shape (rebin_frame 3 3 3 1 1 Demo.ramp) = Some [1; 1].
Proof. reflexivity. Qed.

(** A frame minus a one-element list of frames has three dimensions. *)
Example single_df_broadcasts :
  option_map np_shape
    (sub_df (DfList [A2 [[Fin 1; Fin 2]]]) (A2 [[Fin 5; Fin 7]]))
  = Some [1; 1; 2].
Proof. reflexivity. Qed.

(* ================================================================== *)
(** * What the stages leave alone *)
(* ================================================================== *)

Lemma flags_le_refl p : flags_le p p.
Proof. unfold flags_le. tauto. Qed.

Lemma flags_le_trans p q r : flags_le p q -> flags_le q r -> flags_le p r.
Proof. unfold flags_le. tauto. Qed.

Lemma frames_rewritten_refl s : frames_rewritten s s.
Proof. repeat split; auto using flags_le_refl; apply flags_le_refl. Qed.

Lemma frames_rewritten_trans s1 s2 s3 :
  frames_rewritten s1 s2 -> frames_rewritten s2 s3 ->
  frames_rewritten s1 s3.
Proof.
  intros (N1 & S1 & L1 & D1 & F1) (N2 & S2 & L2 & D2 & F2).
  repeat split; try (intro t; rewrite ?N2, ?S2, ?L2; auto); try congruence.
  all: destruct F1 as (? & ? & ? & ? & ?), F2 as (? & ? & ? & ? & ?); auto.
Qed.

(** Replacing the frames of sample or ob by as many frames. *)
Lemma frames_rewritten_with_data t v s :
  t <> Df -> List.length v = List.length (data (get_role t s)) ->
  frames_rewritten s (set_role t (with_data v (get_role t s)) s).
Proof.
  intros Ht Hl.
  repeat split; try (intros []; destruct t; simpl in *; congruence);
    try (destruct t; simpl; congruence); tauto.
Qed.

Lemma frames_rewritten_with_flags p s :
  flags_le (exec_process_status s) p ->
  frames_rewritten s (with_status p s).
Proof.
  intro H. repeat split; try (intros []; reflexivity); apply H.
Qed.

Lemma map_opt_length {A B} (f : A -> option B) :
  forall l l', map_opt f l = Some l' -> List.length l' = List.length l.
Proof.
  induction l as [| a l IH]; intros l' H; simpl in H.
  - inversion H. reflexivity.
  - destruct (f a); [| discriminate].
    destruct (map_opt f l) as [bs |] eqn:E; [| discriminate].
    inversion H. simpl. f_equal. apply IH. reflexivity.
Qed.

Lemma flags_le_set_normalization p : flags_le p (set_flag_normalization p).
Proof. unfold flags_le. simpl. tauto. Qed.
Lemma flags_le_set_df_correction p : flags_le p (set_flag_df_correction p).
Proof. unfold flags_le. simpl. tauto. Qed.
Lemma flags_le_set_crop p : flags_le p (set_flag_crop p).
Proof. unfold flags_le. simpl. tauto. Qed.
Lemma flags_le_set_bin p : flags_le p (set_flag_bin p).
Proof. unfold flags_le. simpl. tauto. Qed.

Create HintDb rewrites.
#[export] Hint Resolve flags_le_refl flags_le_set_normalization
  flags_le_set_df_correction flags_le_set_crop flags_le_set_bin : rewrites.

(** ** Rules *)

Section RewritesFrom.

Variable s0 : GratingInterferometer.

Lemma from_ret {A} (a : A) : rewrites_from s0 (ret a).
Proof. intros s1 H. exact H. Qed.

Lemma from_raise {A} (e : exn) : rewrites_from s0 (@raise A e).
Proof. intros s1 H. exact H. Qed.

Lemma from_bind {A B} (c : M A) (k : A -> M B) :
  rewrites_from s0 c -> (forall a, rewrites_from s0 (k a)) ->
  rewrites_from s0 (bind c k).
Proof.
  intros Hc Hk s1 H. unfold bind. specialize (Hc s1 H).
  destruct (c s1) as [[a | e] s2]; simpl in *; [apply Hk; exact Hc | exact Hc].
Qed.

Lemma from_bind_ret {A B} (a : A) (k : A -> M B) :
  rewrites_from s0 (k a) -> rewrites_from s0 (bind (ret a) k).
Proof. intros H s1 H1. exact (H s1 H1). Qed.

Lemma from_bind_raise {A B} (e : exn) (k : A -> M B) :
  rewrites_from s0 (bind (raise e) k).
Proof. intros s1 H1. exact H1. Qed.

Lemma from_bind_assoc {A B C} (c : M A) (f : A -> M B) (k : B -> M C) :
  rewrites_from s0 (bind c (fun a => bind (f a) k)) ->
  rewrites_from s0 (bind (bind c f) k).
Proof.
  intros H s1 H1. specialize (H s1 H1). unfold bind in *.
  destruct (c s1) as [[a | e] s2]; exact H.
Qed.

Lemma from_modify (g : GratingInterferometer -> GratingInterferometer) :
  (forall s1, frames_rewritten s1 (g s1)) -> rewrites_from s0 (modify g).
Proof.
  intros Hg s1 H. exact (frames_rewritten_trans _ _ _ H (Hg s1)).
Qed.

Lemma from_with_data t v :
  t <> Df -> List.length v = List.length (data (get_role t s0)) ->
  rewrites_from s0 (modify_role t (with_data v)).
Proof.
  intros Ht Hl s1 H. apply (frames_rewritten_trans _ _ _ H).
  apply frames_rewritten_with_data; [exact Ht |].
  destruct H as (_ & _ & L & _). rewrite L. exact Hl.
Qed.

Lemma from_rewrites {A} (c : M A) : rewrites c -> rewrites_from s0 c.
Proof. intros Hc s1 H. exact (frames_rewritten_trans _ _ _ H (Hc s1)). Qed.

End RewritesFrom.

Lemma rewrites_get {A} (k : GratingInterferometer -> M A) :
  (forall s, rewrites_from s (k s)) -> rewrites (bind get k).
Proof. intros H s. exact (H s s (frames_rewritten_refl s)). Qed.

Lemma from_bind_get {A} s0 (k : GratingInterferometer -> M A) :
  (forall s, rewrites_from s (k s)) -> rewrites_from s0 (bind get k).
Proof.
  intros H. apply from_rewrites. apply rewrites_get. exact H.
Qed.

Lemma rewrites_of_from {A} (c : M A) :
  (forall s, rewrites_from s c) -> rewrites c.
Proof. intros H s. exact (H s s (frames_rewritten_refl s)). Qed.

Lemma frames_rewritten_other (g : dataset -> dataset) t s :
  (forall d, file_name (g d) = file_name d) ->
  (forall d, shape (g d) = shape d) ->
  (forall d, data (g d) = data d) ->
  frames_rewritten s (set_role t (g (get_role t s)) s).
Proof.
  intros N S D.
  repeat split; try (intros []; destruct t; simpl; rewrite ?N, ?S, ?D;
                     reflexivity);
    try (destruct t; simpl; rewrite ?D; reflexivity); tauto.
Qed.

(** One step of the analysis of a computation. *)
Ltac from_step :=
  lazymatch goal with
  | |- rewrites (bind get _) => apply rewrites_get; intros ?
  | |- rewrites_from _ (bind (bind _ _) _) => apply from_bind_assoc
  | |- rewrites_from _ (bind (ret _) _) => apply from_bind_ret
  | |- rewrites_from _ (bind (raise _) _) => apply from_bind_raise
  | |- rewrites_from _ (bind get _) => apply from_bind_get; intros ?
  | |- rewrites_from _ (bind (if ?b then _ else _) _) => destruct b eqn:?
  | |- rewrites_from _ (bind (match ?x with _ => _ end) _) =>
      destruct x eqn:?
  | |- rewrites_from _ (bind (let '(_, _) := ?p in _) _) => destruct p
  | |- rewrites_from _ (bind (lift_opt _ ?o) _) =>
      destruct o eqn:?; unfold lift_opt
  | |- rewrites_from _ (bind (first ?l) _) => destruct l eqn:?; unfold first
  | |- rewrites_from _ (bind (unpack2 ?l) _) =>
      destruct l as [| ? [| ? [| ? ?]]] eqn:?; unfold unpack2
  | |- rewrites_from _ (bind (when ?b _) _) => destruct b eqn:?; unfold when
  | |- rewrites_from _ (bind (roi_fields ?a) _) =>
      destruct a eqn:?; unfold roi_fields
  | |- rewrites_from _ (bind _ _) => apply from_bind; [| intros ?]
  | |- rewrites_from _ (if ?b then _ else _) => destruct b eqn:?
  | |- rewrites_from _ (match ?x with _ => _ end) => destruct x eqn:?
  | |- rewrites_from _ (let '(_, _) := ?p in _) => destruct p
  | |- rewrites_from _ (when ?b _) => destruct b eqn:?; unfold when
  | |- rewrites_from _ (ret _) => apply from_ret
  | |- rewrites_from _ (raise _) => apply from_raise
  | |- rewrites_from _ (lift_opt _ ?o) =>
      destruct o; [apply from_ret | apply from_raise]
  | |- rewrites_from _ (modify_role ?t (with_data _)) =>
      apply from_with_data; [discriminate |]
  | |- rewrites_from _ (modify_role _ _) =>
      apply from_modify; intros ?; apply frames_rewritten_other;
      intros ?; reflexivity
  | |- rewrites_from _ (modify _) =>
      apply from_modify; intros ?; apply frames_rewritten_with_flags;
      auto with rewrites
  end.

Ltac from_auto := repeat from_step.

Lemma roi_fit_rewrites r : rewrites (__roi_fit_into_sample r).
Proof. unfold __roi_fit_into_sample. from_auto. Qed.

Lemma normalization_rewrites roi force : rewrites (normalization roi force).
Proof.
  unfold normalization. from_auto.
  all: try (apply from_rewrites; apply roi_fit_rewrites).
  all: cbn [fst snd]; rewrite ?length_map; reflexivity.
Qed.

(** The new frames come from a [map_opt] over the old ones. *)
Ltac length_leaf :=
  match goal with
  | H : map_opt ?f ?l0 = Some ?l |- List.length ?l = _ =>
      rewrite (map_opt_length f l0 l H);
      repeat match goal with
             | E : _ = _ :: _ |- _ => rewrite E
             end;
      reflexivity
  end.

Lemma df_correction_role_rewrites t : rewrites (__df_correction t).
Proof.
  unfold __df_correction. destruct t.
  - from_auto. all: length_leaf.
  - from_auto. all: length_leaf.
  - apply rewrites_of_from. intro. apply from_raise.
Qed.

Lemma df_correction_rewrites force : rewrites (df_correction force).
Proof.
  unfold df_correction. from_auto.
  all: apply from_rewrites; apply df_correction_role_rewrites.
Qed.

Lemma crop_rewrites roi force : rewrites (crop roi force).
Proof.
  unfold crop. from_auto. all: rewrite length_map; reflexivity.
Qed.

Lemma oscillation_rewrites roi plot : rewrites (oscillation roi plot).
Proof.
  unfold oscillation. apply rewrites_of_from. intro s0. from_auto.
Qed.

Lemma binning_data_rewrites bin t : t <> Df -> rewrites (__binning_data bin t).
Proof.
  intro Ht. unfold __binning_data. from_auto.
  all: apply from_with_data; [exact Ht |].
  all: length_leaf.
Qed.

Lemma binning_rewrites bin force : rewrites (binning bin force).
Proof.
  unfold binning, np_isnan. apply rewrites_of_from. intro s0.
  destruct bin; from_auto.
  all: apply from_rewrites; apply binning_data_rewrites; discriminate.
Qed.

Lemma reduction_matrix_keeps_state inv t p s :
  snd (_create_reduction_matrix inv t p s) = s.
Proof.
  assert (K : keeps (fun s => s) (_create_reduction_matrix inv t p)).
  { unfold _create_reduction_matrix, stack_shape, reduction_operator, row.
    keeps_auto. }
  apply K.
Qed.

Lemma frames_rewritten_with_interferometry i s :
  frames_rewritten s (with_interferometry i s).
Proof. repeat split; try (intros []; reflexivity); tauto. Qed.

Lemma create_interferometry_images_rewrites inv p :
  rewrites (create_interferometry_images inv p).
Proof.
  assert (Hst : forall f v, rewrites (store f v)).
  { intros f v s. apply frames_rewritten_with_interferometry. }
  unfold create_interferometry_images. apply rewrites_of_from. intro s0.
  apply from_bind; [| intros r1].
  { intros s1 H. rewrite reduction_matrix_keeps_state. exact H. }
  apply from_bind; [| intros r2].
  { intros s1 H. rewrite reduction_matrix_keeps_state. exact H. }
  unfold derive_maps.
  repeat first [ apply from_bind; [| intros ?]
               | apply from_rewrites; apply Hst
               | from_step ].
Qed.

(* ================================================================== *)
(** * Sequences of calls *)
(* ================================================================== *)

Lemma stage_rewrites c s :
  is_stage c = true -> frames_rewritten s (exec_call c s).
Proof.
  destruct c; try discriminate; intros _; simpl.
  - apply normalization_rewrites.
  - apply df_correction_rewrites.
  - apply crop_rewrites.
  - apply oscillation_rewrites.
  - apply binning_rewrites.
  - apply create_interferometry_images_rewrites.
Qed.

(** X1: whatever stages are called, in whatever order and with whatever
    arguments, and whether they return or raise, the instance keeps the
    file names and the stored shape of every role, the number of frames
    of every role and the dark-field frames themselves, and no stage flag
    that was set is cleared. *)
Theorem stages_only_rewrite_frames calls s :
  forallb is_stage calls = true ->
  frames_rewritten s (run_calls calls s).
Proof.
  revert s. induction calls as [| c calls IH]; intros s H.
  - apply frames_rewritten_refl.
  - simpl in H. apply andb_true_iff in H. destruct H as [Hc H].
    simpl. eapply frames_rewritten_trans.
    + apply (stage_rewrites c s Hc).
    + apply IH. exact H.
Qed.

(** The statement above for a full pipeline run on 2x2 frames. *)
Lemma stages_only_rewrite_frames_witness :
  frames_rewritten Demo.square_pair
    (run_calls [DfCorrection false; Normalization RoiNone false;
                Crop (RoiObj (mkROI 0 0 1 1)) false;
                Oscillation RoiNone false; Binning (BinInt 2) false]
       Demo.square_pair).
Proof.
  apply (stages_only_rewrite_frames
           [DfCorrection false; Normalization RoiNone false;
            Crop (RoiObj (mkROI 0 0 1 1)) false;
            Oscillation RoiNone false; Binning (BinInt 2) false]
           Demo.square_pair).
  reflexivity.
Defined.

(** ** File names stay parallel to frames *)

Lemma rewritten_aligned s s' :
  frames_rewritten s s' -> all_aligned s -> all_aligned s'.
Proof.
  intros (N & _ & L & _) H t. unfold aligned. rewrite N, L. apply H.
Qed.

Lemma save_or_check_shape_keeps_lists a t t' :
  keeps (fun s => (data (get_role t' s), file_name (get_role t' s)))
    (save_or_check_shape a t).
Proof.
  unfold save_or_check_shape. keeps_auto.
  apply keeps_modify. intro s. destruct t, t'; reflexivity.
Qed.

Lemma load_file_aligned fs file t s :
  all_aligned s -> all_aligned (snd (load_file fs file t s)).
Proof.
  intro H. unfold load_file.
  destruct (is_file fs file); [| exact H].
  assert (K : forall a,
            all_aligned
              (snd ((modify_role t (fun d => with_data (data d ++ [A2 a]) d) ;;
                     modify_role t
                       (fun d => with_file_name (file_name d ++ [file]) d) ;;
                     save_or_check_shape (A2 a) t) s))).
  { intro a. rewrite !bind_outcome. unfold modify_role at 1, modify at 1.
    rewrite bind_outcome. unfold modify_role at 1, modify at 1.
    match goal with
    | |- all_aligned (snd (save_or_check_shape _ _ ?s2)) =>
        pose proof (fun t' =>
                      save_or_check_shape_keeps_lists (A2 a) t t' s2) as E;
        assert (A2' : all_aligned s2)
    end.
    { intro t'. specialize (H t'). unfold aligned in *.
      destruct t, t'; simpl in *; rewrite ?length_app; simpl; lia. }
    intro t'. unfold aligned. specialize (E t'). cbv beta in E.
    injection E as E1 E2. rewrite E1, E2. apply A2'. }
  destruct (endswith (lower file) ".fits"); [apply K |].
  destruct (endswith_any (lower file) [".tiff"; ".tif"]); [apply K |].
  destruct (endswith_any (lower file) _); [apply K | exact H].
Qed.

Lemma load_aligned fs file folder t s :
  all_aligned s -> all_aligned (snd (load fs file folder t s)).
Proof.
  intro H. unfold load. rewrite bind_outcome. unfold get at 1.
  destruct (existsb _ _); [exact H |].
  rewrite bind_outcome.
  assert (H1 : all_aligned
                 (snd (when (negb (file =? ""))%string
                         (load_file fs file t) s))).
  { destruct (negb _); [apply load_file_aligned; exact H | exact H]. }
  destruct (when (negb (file =? ""))%string (load_file fs file t) s)
    as [[[] | e] s1]; simpl in *; [| exact H1].
  destruct (negb (folder =? ""))%string; simpl; [| exact H1].
  generalize (get_sorted_list_images fs folder). intro l.
  revert s1 H1. induction l as [| im l IH]; intros s1 H1; [exact H1 |].
  simpl. rewrite bind_outcome.
  pose proof (load_file_aligned fs (path_join folder im) t s1 H1) as H2.
  destruct (load_file fs (path_join folder im) t s1) as [[[] | e] s2];
    simpl in *; [apply IH; exact H2 | exact H2].
Qed.

Lemma call_aligned c s : all_aligned s -> all_aligned (exec_call c s).
Proof.
  intro H. destruct (is_stage c) eqn:E.
  - exact (rewritten_aligned _ _ (stage_rewrites c s E) H).
  - destruct c; try discriminate; simpl.
    + apply load_aligned; exact H.
    + apply load_file_aligned; exact H.
Qed.

(** X2: in every instance reachable from a fresh one by calls of the
    public methods, each role holds exactly one file name per frame. *)
Theorem file_names_stay_parallel_to_frames calls :
  all_aligned (run_calls calls init).
Proof.
  assert (G : forall l s, all_aligned s -> all_aligned (run_calls l s)).
  { induction l as [| c l IH]; intros s H; [exact H |].
    simpl. apply IH. apply call_aligned. exact H. }
  apply G. intros []; reflexivity.
Qed.

(** ** Flags are never cleared *)

Lemma call_flags c s :
  flags_le (exec_process_status s) (exec_process_status (exec_call c s)).
Proof.
  destruct (is_stage c) eqn:E.
  - apply (stage_rewrites c s E).
  - destruct c; try discriminate; simpl.
    + rewrite keeps_status_load. apply flags_le_refl.
    + rewrite keeps_status_load_file. apply flags_le_refl.
Qed.

Lemma flags_le_any_stage_run s s' :
  flags_le (exec_process_status s) (exec_process_status s') ->
  any_stage_run s = true -> any_stage_run s' = true.
Proof.
  unfold any_stage_run, status_values, flags_le.
  intros (H1 & H2 & H3 & H4 & H5). simpl.
  rewrite !orb_false_r, !orb_true_iff.
  intros [H | [H | [H | [H | H]]]]; auto 10.
Qed.

(** X3: once any stage flag is set, it stays set through every later call
    of a public method, so [load] is refused from then on, leaving the
    instance as it is. *)
Theorem load_stays_refused calls s fs file folder t :
  any_stage_run s = true ->
  let s' := run_calls calls s in
  flags_le (exec_process_status s) (exec_process_status s') /\
  load fs file folder t s' = (Raise OperationNotAllowed, s').
Proof.
  intros H s'.
  assert (G : forall l s1,
            flags_le (exec_process_status s1)
              (exec_process_status (run_calls l s1))).
  { induction l as [| c l IH]; intro s1; [apply flags_le_refl |].
    simpl. eapply flags_le_trans; [apply call_flags | apply IH]. }
  split; [apply G |].
  apply load_blocked. apply (flags_le_any_stage_run s); [apply G | exact H].
Qed.

(** The statement above after a failed normalization of a fresh
    instance. *)
Lemma load_stays_refused_witness :
  load Demo.fs "a.tif" "" Sample
    (run_calls [Oscillation RoiNone false]
       (snd (normalization RoiNone false init)))
  = (Raise OperationNotAllowed,
     run_calls [Oscillation RoiNone false]
       (snd (normalization RoiNone false init))).
Proof.
  exact (proj2 (load_stays_refused [Oscillation RoiNone false]
                  (snd (normalization RoiNone false init))
                  Demo.fs "a.tif" "" Sample eq_refl)).
Defined.

(* ================================================================== *)
(** * Loading a frame *)
(* ================================================================== *)

Lemma load_file_decoded fs file t s a :
  is_file fs file = true -> decodes_to fs file a ->
  load_file fs file t s
  = save_or_check_shape (A2 a) t (appended t (A2 a) file s).
Proof.
  intros Hf Hd. unfold load_file. rewrite Hf.
  assert (K : forall b,
            (modify_role t (fun d => with_data (data d ++ [A2 b]) d) ;;
             modify_role t
               (fun d => with_file_name (file_name d ++ [file]) d) ;;
             save_or_check_shape (A2 b) t) s
            = save_or_check_shape (A2 b) t (appended t (A2 b) file s)).
  { intro b. unfold appended. destruct t; reflexivity. }
  destruct Hd as [(E1 & ->) | [(E1 & E2 & ->) | (E1 & E2 & E3 & ->)]];
    rewrite E1, ?E2, ?E3; apply K.
Qed.

Lemma save_or_check_shape_frame a t s :
  save_or_check_shape (A2 a) t s =
  match height (shape (get_role t s)) with
  | None =>
      (Return tt,
       set_role t
         (with_shape {| width := Some (List.length (hd [] a));
                        height := Some (List.length a) |}
            (get_role t s)) s)
  | Some h0 =>
      if (negb match width (shape (get_role t s)) with
               | Some w0 => Nat.eqb w0 (List.length (hd [] a))
               | None => false
               end
          || negb (Nat.eqb h0 (List.length a)))%bool
      then (Raise ShapeMismatch, s)
      else (Return tt, s)
  end.
Proof.
  unfold save_or_check_shape. rewrite bind_outcome.
  cbn [np_shape unpack2]. unfold ret at 1. rewrite bind_outcome.
  unfold get at 1.
  destruct (height (shape (get_role t s))); [| reflexivity].
  destruct (_ || _)%bool; reflexivity.
Qed.

Lemma load_file_appends fs file t s a :
  is_file fs file = true -> decodes_to fs file a ->
  data (get_role t (snd (load_file fs file t s)))
  = (data (get_role t s) ++ [A2 a])%list /\
  file_name (get_role t (snd (load_file fs file t s)))
  = (file_name (get_role t s) ++ [file])%list.
Proof.
  intros Hf Hd. rewrite (load_file_decoded fs file t s a Hf Hd).
  pose proof (save_or_check_shape_keeps_lists (A2 a) t t
                (appended t (A2 a) file s)) as K.
  cbv beta in K. injection K as K1 K2. rewrite K1, K2.
  destruct t; split; reflexivity.
Qed.

(** X4: [load_file] of an existing file with a recognised extension
    appends the decoded frame and its name to the role.  If the role has
    no shape yet, the frame's shape is recorded and the call returns; if
    it has one, the call returns when the frame has that very shape and
    raises ShapeMismatch otherwise, the stored shape staying as it is. *)
Theorem load_file_shape_guard fs file t s a :
  is_file fs file = true -> decodes_to fs file a ->
  let h := List.length a in
  let w := List.length (hd [] a) in
  let s' := snd (load_file fs file t s) in
  data (get_role t s') = (data (get_role t s) ++ [A2 a])%list /\
  file_name (get_role t s') = (file_name (get_role t s) ++ [file])%list /\
  (height (shape (get_role t s)) = None ->
   fst (load_file fs file t s) = Return tt /\
   shape (get_role t s') = {| width := Some w; height := Some h |}) /\
  (forall h0 w0,
     shape (get_role t s) = {| width := Some w0; height := Some h0 |} ->
     fst (load_file fs file t s)
     = (if (Nat.eqb w0 w && Nat.eqb h0 h)%bool then Return tt
        else Raise ShapeMismatch) /\
     shape (get_role t s') = shape (get_role t s)).
Proof.
  intros Hf Hd h w s'. subst s'.
  rewrite (load_file_decoded fs file t s a Hf Hd).
  rewrite save_or_check_shape_frame.
  assert (Hsh : shape (get_role t (appended t (A2 a) file s))
                = shape (get_role t s)) by (destruct t; reflexivity).
  assert (Hda : data (get_role t (appended t (A2 a) file s))
                = (data (get_role t s) ++ [A2 a])%list)
    by (destruct t; reflexivity).
  assert (Hfn : file_name (get_role t (appended t (A2 a) file s))
                = (file_name (get_role t s) ++ [file])%list)
    by (destruct t; reflexivity).
  rewrite Hsh. fold h w.
  destruct (shape (get_role t s)) as [ow oh] eqn:E. cbn [height width].
  destruct oh as [h0 |].
  - assert (Hif : forall b : bool,
              (if b then (@Raise unit ShapeMismatch,
                          appended t (A2 a) file s)
               else (Return tt, appended t (A2 a) file s))
              = (if b then Raise ShapeMismatch else Return tt,
                 appended t (A2 a) file s))
      by (intros []; reflexivity).
    rewrite Hif. cbn [fst snd].
    split; [exact Hda |]. split; [exact Hfn |].
    split; [discriminate |].
    intros h1 w1 E1. inversion E1; subst.
    split; [| rewrite Hsh; reflexivity].
    destruct (Nat.eqb w1 w), (Nat.eqb h1 h); reflexivity.
  - cbn [fst snd].
    split; [destruct t; exact Hda |].
    split; [destruct t; exact Hfn |].
    split; [| discriminate].
    intros _. split; [reflexivity | destruct t; reflexivity].
Qed.

(** The statement above for a second 1x1 frame loaded into the sample
    role. *)
Lemma load_file_shape_guard_witness :
  data (get_role Sample (snd (load_file Demo.fs "a.tif" Sample
                                Demo.sample_only)))
  = (data (get_role Sample Demo.sample_only) ++ [A2 [[Fin 2]]])%list.
Proof.
  refine (proj1 (load_file_shape_guard Demo.fs "a.tif" Sample
                   Demo.sample_only [[Fin 2]] eq_refl _)).
  right. left. repeat split.
Defined.

(** ** Extensions are matched at the end of the name, in any letter
    case *)

Lemma string_length_app (a b : string) :
  String.length (a ++ b) = String.length a + String.length b.
Proof. induction a as [| c a IH]; simpl; [reflexivity | rewrite IH; reflexivity]. Qed.

Lemma substring_whole (b : string) : substring 0 (String.length b) b = b.
Proof. induction b as [| c b IH]; simpl; [reflexivity | rewrite IH; reflexivity]. Qed.

Lemma substring_past_prefix (a b : string) :
  substring (String.length a) (String.length b) (a ++ b) = b.
Proof. induction a as [| c a IH]; simpl; [apply substring_whole | exact IH]. Qed.

Lemma endswith_app (a b : string) : endswith (a ++ b) b = true.
Proof.
  unfold endswith. rewrite string_length_app.
  replace (String.length a + String.length b - String.length b)
    with (String.length a) by lia.
  rewrite substring_past_prefix, String.eqb_refl.
  replace (Nat.leb _ _) with true; [reflexivity |].
  symmetry. apply Nat.leb_le. lia.
Qed.

Lemma lower_app (a b : string) : lower (a ++ b) = (lower a ++ lower b)%string.
Proof. induction a as [| c a IH]; simpl; [reflexivity | rewrite IH; reflexivity]. Qed.

(** X5: a name that ends in [.fits], written in any mix of upper and
    lower case, is handed to the FITS decoder, whatever precedes the
    extension; the decoded frame is what [load_file] appends. *)
Theorem fits_extension_in_any_case fs (base ext : string) t s :
  lower ext = ".fits" ->
  is_file fs (base ++ ext) = true ->
  let file := (base ++ ext)%string in
  decodes_to fs file (load_fits fs file) /\
  data (get_role t (snd (load_file fs file t s)))
  = (data (get_role t s) ++ [A2 (load_fits fs file)])%list.
Proof.
  intros He Hf file.
  assert (D : decodes_to fs file (load_fits fs file)).
  { left. split; [| reflexivity].
    unfold file. rewrite lower_app, He. apply endswith_app. }
  split; [exact D |].
  exact (proj1 (load_file_appends fs file t s _ Hf D)).
Qed.

(** The statement above for a name ending in [.FiTs]. *)
Lemma fits_extension_in_any_case_witness :
  data (get_role Sample
          (snd (load_file Demo.fits_fs "scan_01.FiTs" Sample init)))
  = [A2 [[Fin 1; Fin 2]]].
Proof.
  exact (proj2 (fits_extension_in_any_case Demo.fits_fs "scan_01" ".FiTs"
                  Sample init eq_refl eq_refl)).
Defined.

(** ** Re-running a stage *)



(* ================================================================== *)
(** * Oscillation *)
(* ================================================================== *)



(* ================================================================== *)
(** * What cropping keeps *)
(* ================================================================== *)

Lemma py_slice_nth {A} (lo hi : Z) (l : list A) i d :
  (0 <= lo <= hi)%Z -> (hi <= Z.of_nat (List.length l))%Z ->
  i < Z.to_nat (hi - lo) ->
  nth i (py_slice lo hi l) d = nth (Z.to_nat lo + i) l d.
Proof.
  intros H1 H2 Hi. unfold py_slice.
  rewrite !slice_bound_in_range by lia.
  rewrite nth_firstn.
  replace (i <? Z.to_nat (hi - lo)) with true
    by (symmetry; apply Nat.ltb_lt; exact Hi).
  apply nth_skipn.
Qed.

Lemma py_slice_all {A} (l : list A) :
  py_slice 0 (Z.of_nat (List.length l)) l = l.
Proof.
  unfold py_slice. rewrite !slice_bound_in_range by lia.
  rewrite Z.sub_0_r, Nat2Z.id. simpl. apply firstn_all.
Qed.


Lemma cropped_pixel r h w a y x :
  is_frame h w a ->
  (0 <= x0 r <= x1 r)%Z -> (x1 r < Z.of_nat w)%Z ->
  (0 <= y0 r <= y1 r)%Z -> (y1 r < Z.of_nat h)%Z ->
  y < Z.to_nat (y1 r - y0 r + 1) -> x < Z.to_nat (x1 r - x0 r + 1) ->
  pixel y x (roi_window r a)
  = pixel (Z.to_nat (y0 r) + y) (Z.to_nat (x0 r) + x) a.
Proof.
  intros (rows & -> & Hh & Hw) Hx Hx' Hy Hy' Hyy Hxx.
  unfold roi_window. cbn [np_slice2 pixel]. unfold entry.
  assert (Ly : List.length (py_slice (y0 r) (y1 r + 1) rows)
               = Z.to_nat (y1 r + 1 - y0 r))
    by (apply py_slice_length; lia).
  rewrite (nth_map_lt (py_slice (x0 r) (x1 r + 1)) _ y [] [])
    by (rewrite Ly; lia).
  rewrite (py_slice_nth (y0 r) (y1 r + 1) rows y []) by lia.
  rewrite Forall_forall in Hw.
  apply py_slice_nth; [lia | | lia].
  rewrite (Hw (nth (Z.to_nat (y0 r) + y) rows []))
    by (apply nth_In; lia).
  lia.
Qed.

Lemma whole_frame_window r h w a :
  is_frame h w a ->
  x0 r = 0%Z -> y0 r = 0%Z ->
  x1 r = (Z.of_nat w - 1)%Z -> y1 r = (Z.of_nat h - 1)%Z ->
  roi_window r a = a.
Proof.
  intros (rows & -> & Hh & Hw) E1 E2 E3 E4.
  unfold roi_window. rewrite E1, E2, E3, E4. cbn [np_slice2]. f_equal.
  replace (Z.of_nat h - 1 + 1)%Z with (Z.of_nat (List.length rows)) by lia.
  rewrite py_slice_all.
  replace (Z.of_nat w - 1 + 1)%Z with (Z.of_nat w) by lia.
  rewrite <- (map_id rows) at 2. apply map_ext_in.
  intros row Hin. rewrite Forall_forall in Hw.
  rewrite <- (Hw row Hin). apply py_slice_all.
Qed.

(** X8: a [crop] that runs on non-empty stacks of [h x w] frames with an
    ROI inside the frame returns [True] and replaces every sample and ob
    frame by its window: the pixel at [(y, x)] of the new frame is the
    pixel at [(y0 + y, x0 + x)] of the old one, and an ROI spanning the
    whole frame gives the frame back. *)
Theorem crop_takes_the_window r force s h w :
  runs force (flag_crop (exec_process_status s)) ->
  data (dict_image s) <> [] -> data (dict_ob s) <> [] ->
  Forall (is_frame h w) (data (dict_image s)) ->
  Forall (is_frame h w) (data (dict_ob s)) ->
  (0 <= x0 r <= x1 r)%Z -> (x1 r < Z.of_nat w)%Z ->
  (0 <= y0 r <= y1 r)%Z -> (y1 r < Z.of_nat h)%Z ->
  let s' := snd (crop (RoiObj r) force s) in
  fst (crop (RoiObj r) force s) = Return PyTrue /\
  data (dict_image s') = map (roi_window r) (data (dict_image s)) /\
  data (dict_ob s') = map (roi_window r) (data (dict_ob s)) /\
  (forall a, In a (data (dict_image s) ++ data (dict_ob s)) ->
     (forall y x,
        y < Z.to_nat (y1 r - y0 r + 1) -> x < Z.to_nat (x1 r - x0 r + 1) ->
        pixel y x (roi_window r a)
        = pixel (Z.to_nat (y0 r) + y) (Z.to_nat (x0 r) + x) a) /\
     (x0 r = 0%Z -> y0 r = 0%Z ->
      x1 r = (Z.of_nat w - 1)%Z -> y1 r = (Z.of_nat h - 1)%Z ->
      roi_window r a = a)).
Proof.
  intros Hrun Hs Ho Hfs Hfo Hx Hx' Hy Hy' s'. subst s'.
  rewrite (crop_result r Hrun Hs Ho). cbn [fst snd].
  split; [reflexivity |]. split; [reflexivity |]. split; [reflexivity |].
  intros a Hin.
  assert (Ha : is_frame h w a).
  { apply in_app_or in Hin. rewrite Forall_forall in Hfs, Hfo.
    destruct Hin; auto. }
  split.
  - intros y x Hyy Hxx. apply (cropped_pixel r h w a y x); assumption.
  - apply (whole_frame_window r h w a Ha).
Qed.

(** The statement above on 2x2 frames with the ROI (1, 0, 1, 1). *)
Lemma crop_takes_the_window_witness :
  fst (crop (RoiObj (mkROI 1 0 1 1)) false Demo.square_pair)
  = Return PyTrue.
Proof.
  assert (fr : is_frame 2 2 (A2 [[Fin 1; Fin 2]; [Fin 3; Fin 4]])).
  { exists [[Fin 1; Fin 2]; [Fin 3; Fin 4]]. split; [reflexivity |].
    split; [reflexivity | repeat constructor]. }
  refine (proj1 (crop_takes_the_window (mkROI 1 0 1 1) false
                   Demo.square_pair 2 2 eq_refl _ _
                   (Forall_cons _ fr (Forall_nil _))
                   (Forall_cons _ fr (Forall_nil _)) _ _ _ _)).
  - discriminate.
  - discriminate.
  - simpl; lia.
  - simpl; lia.
  - simpl; lia.
  - simpl; lia.
Defined.



(* ================================================================== *)
(** * What binning computes *)
(* ================================================================== *)

Lemma firstn_skipn_seq {A} (n m : nat) (l : list A) d :
  m + n <= List.length l ->
  firstn n (skipn m l) = map (fun j => nth (m + j) l d) (seq 0 n).
Proof.
  intro H. apply (nth_ext _ _ d d).
  - rewrite length_firstn, length_skipn, length_map, length_seq. lia.
  - intros i Hi. rewrite length_firstn, length_skipn in Hi.
    rewrite nth_firstn.
    replace (i <? n) with true by (symmetry; apply Nat.ltb_lt; lia).
    rewrite nth_skipn. symmetry.
    rewrite (nth_map_seq (fun j => nth (m + j) l d) n i d) by lia.
    reflexivity.
Qed.

Lemma chunk_nth_seq {A} (w k : nat) (l : list A) y d :
  0 < w -> List.length l = k * w -> y < k ->
  nth y (chunk w l) [] = map (fun x => nth (y * w + x) l d) (seq 0 w).
Proof.
  intros Hw Hl Hy. unfold chunk.
  rewrite (@chunk_fuel_nth _ w Hw k) by (try assumption; rewrite Hl; nia).
  apply firstn_skipn_seq. rewrite Hl. nia.
Qed.

Lemma frame_pixel_flat h w a y x :
  is_frame h w a -> y < h -> x < w ->
  nth (y * w + x) (np_flat a) NaN = pixel y x a.
Proof.
  intros (rows & -> & Hh & Hw) Hy Hx. cbn [np_flat pixel]. unfold entry.
  apply nth_concat_uniform; [exact Hw | lia | exact Hx].
Qed.

Lemma top_left_pixel (nh nw : Z) h w a y x :
  is_frame h w a ->
  (0 <= nh <= Z.of_nat h)%Z -> (0 <= nw <= Z.of_nat w)%Z ->
  y < Z.to_nat nh -> x < Z.to_nat nw ->
  pixel y x (np_slice2 0 nh 0 nw a) = pixel y x a.
Proof.
  intros (rows & -> & Hh & Hw) H1 H2 Hy Hx.
  cbn [np_slice2 pixel]. unfold entry.
  assert (Ly : List.length (py_slice 0 nh rows) = Z.to_nat (nh - 0))
    by (apply py_slice_length; lia).
  rewrite (nth_map_lt (py_slice 0 nw) _ y [] []) by (rewrite Ly; lia).
  rewrite (py_slice_nth 0 nh rows y []) by lia.
  rewrite Forall_forall in Hw. cbn [Z.to_nat Nat.add].
  rewrite py_slice_nth; [reflexivity | lia | | lia].
  rewrite (Hw (nth y rows [])) by (apply nth_In; lia). lia.
Qed.

(** Binning one frame: each value of the result is a block mean. *)
Lemma rebin_frame_blocks (b : Z) h w a :
  is_frame h w a ->
  (1 <= b)%Z -> (b <= Z.of_nat h)%Z -> (b <= Z.of_nat w)%Z ->
  let nh := (Z.of_nat h / b)%Z in
  let nw := (Z.of_nat w / b)%Z in
  exists a',
    rebin_frame b (nh * b) (nw * b) nh nw a = Some a' /\
    binned (Z.to_nat b) (Z.to_nat nh) (Z.to_nat nw) a a'.
Proof.
  intros Ha Hb Hbh Hbw nh nw.
  destruct (rebin_frame_shape b h w a Ha Hb Hbh Hbw) as (a' & E & Fa').
  fold nh nw in E, Fa'. exists a'. split; [exact E |].
  split; [exact Fa' |]. intros i k Hi Hk.
  assert (Hnh : (1 <= nh)%Z) by (apply Z.div_le_lower_bound; lia).
  assert (Hnw : (1 <= nw)%Z) by (apply Z.div_le_lower_bound; lia).
  assert (Hnh' : (nh * b <= Z.of_nat h)%Z)
    by (rewrite Z.mul_comm; apply Z.mul_div_le; lia).
  assert (Hnw' : (nw * b <= Z.of_nat w)%Z)
    by (rewrite Z.mul_comm; apply Z.mul_div_le; lia).
  set (bn := Z.to_nat b). set (nhn := Z.to_nat nh). set (nwn := Z.to_nat nw).
  fold nhn in Hi. fold nwn in Hk.
  assert (Hs : is_frame (nhn * bn) (nwn * bn)
                 (np_slice2 0 (nh * b) 0 (nw * b) a)).
  { replace (nhn * bn) with (Z.to_nat (nh * b - 0)) by (subst nhn bn; nia).
    replace (nwn * bn) with (Z.to_nat (nw * b - 0)) by (subst nwn bn; nia).
    apply (sliced_frame 0 (nh * b) 0 (nw * b) h w a Ha)%Z; nia. }
  pose proof (frame_flat_length Hs) as Hlen.
  revert E. unfold rebin_frame, reshape4.
  replace ((nh <? 0) || (b <? 0) || (nw <? 0) || (b <? 0))%Z%bool with false
    by (symmetry; rewrite !orb_false_iff, !Z.ltb_ge; lia).
  replace (Z.of_nat (List.length (np_flat (np_slice2 0 (nh * b) 0 (nw * b) a)))
           =? nh * b * nw * b)%Z with true
    by (symmetry; apply Z.eqb_eq; rewrite Hlen; subst nhn nwn bn; nia).
  cbv [negb]. intro E. inversion E as [E']. clear E E'.
  fold bn nwn.
  set (flat := np_flat (np_slice2 0 (nh * b) 0 (nw * b) a)) in *.
  set (C1 := chunk bn flat).
  set (C2 := chunk nwn C1).
  assert (Hbn : 0 < bn) by (subst bn; lia).
  assert (Hnwn : 0 < nwn) by (subst nwn; lia).
  assert (L1 : List.length C1 = nhn * bn * nwn).
  { apply chunk_length; [exact Hbn |]. rewrite Hlen. nia. }
  assert (L2 : List.length C2 = nhn * bn).
  { apply chunk_length; [exact Hnwn | exact L1]. }
  cbn [pixel]. unfold entry, mean_axis1, mean_axis3.
  rewrite (nth_map_lt (mean_cols nwn) _ i [] [])
    by (rewrite length_map; rewrite (chunk_length bn nhn C2 Hbn L2);
        exact Hi).
  unfold mean_cols. rewrite nth_map_seq by exact Hk.
  rewrite (nth_map_lt (map (map xmean)) _ i [] [])
    by (rewrite (chunk_length bn nhn C2 Hbn L2); exact Hi).
  rewrite (chunk_nth_seq bn nhn C2 i [] Hbn L2 Hi).
  rewrite !map_map. unfold block_mean. f_equal.
  apply map_ext_in. intros j Hj. apply in_seq in Hj.
  assert (Hij : i * bn + j < nhn * bn) by nia.
  unfold C2 at 1.
  rewrite (chunk_nth_seq nwn (nhn * bn) C1 (i * bn + j) [] Hnwn L1 Hij).
  rewrite map_map.
  rewrite (nth_map_seq _ nwn k NaN) by exact Hk.
  f_equal. unfold C1.
  assert (Hjk : (i * bn + j) * nwn + k < nhn * bn * nwn) by nia.
  assert (Lf : List.length flat = nhn * bn * nwn * bn)
    by (rewrite Hlen; nia).
  rewrite (chunk_nth_seq bn (nhn * bn * nwn) flat _ NaN Hbn Lf Hjk).
  apply map_ext_in. intros l Hl. apply in_seq in Hl.
  replace (((i * bn + j) * nwn + k) * bn + l)
    with ((i * bn + j) * (nwn * bn) + (k * bn + l)) by nia.
  unfold flat.
  rewrite (frame_pixel_flat (nhn * bn) (nwn * bn) _ _ _ Hs) by nia.
  apply (top_left_pixel (nh * b) (nw * b) h w a _ _ Ha);
    subst nhn nwn bn; nia.
Qed.

Lemma map_opt_forall2 {A B} (f : A -> option B) (R : A -> B -> Prop) :
  forall l,
    (forall a, In a l -> exists b, f a = Some b /\ R a b) ->
    exists l', map_opt f l = Some l' /\ Forall2 R l l'.
Proof.
  induction l as [| a l IH]; intro H.
  - exists []. split; [reflexivity | constructor].
  - destruct (H a (or_introl eq_refl)) as (b & Hb & Rb).
    destruct IH as (l' & Hl' & Rl').
    { intros a' Hin. apply H. right. exact Hin. }
    exists (b :: l'). simpl. rewrite Hb, Hl'.
    split; [reflexivity | constructor; assumption].
Qed.

Lemma binning_data_blocks (b : Z) t s h w :
  Forall (is_frame h w) (data (get_role t s)) ->
  data (get_role t s) <> [] ->
  (1 <= b)%Z -> (b <= Z.of_nat h)%Z -> (b <= Z.of_nat w)%Z ->
  exists new,
    __binning_data b t s
    = (Return tt, set_role t (with_data new (get_role t s)) s) /\
    Forall2 (binned (Z.to_nat b) (Z.to_nat (Z.of_nat h / b))
               (Z.to_nat (Z.of_nat w / b)))
      (data (get_role t s)) new.
Proof.
  intros Hf Hne Hb Hbh Hbw.
  destruct (data (get_role t s)) as [| d0 rest] eqn:Ed; [congruence |].
  assert (Hhw : np_shape d0 = [h; w]).
  { apply frame_shape; [exact (Forall_inv Hf) | lia]. }
  unfold __binning_data. rewrite bind_outcome. unfold get at 1.
  rewrite Ed. rewrite bind_outcome. unfold first, ret at 1.
  rewrite bind_outcome, Hhw. unfold unpack2, ret at 1.
  cbn [fst snd].
  replace (b =? 0)%Z with false by (symmetry; apply Z.eqb_neq; lia).
  set (nh := (Z.of_nat h / b)%Z). set (nw := (Z.of_nat w / b)%Z).
  replace (if negb (Z.of_nat h mod b =? 0)%Z then (nh * b)%Z else Z.of_nat h)
    with (nh * b)%Z.
  2:{ destruct (Z.of_nat h mod b =? 0)%Z eqn:E; [| reflexivity].
      apply Z.eqb_eq in E. cbv [negb]. subst nh.
      pose proof (Z.div_mod (Z.of_nat h) b). lia. }
  replace (if negb (Z.of_nat w mod b =? 0)%Z then (nw * b)%Z else Z.of_nat w)
    with (nw * b)%Z.
  2:{ destruct (Z.of_nat w mod b =? 0)%Z eqn:E; [| reflexivity].
      apply Z.eqb_eq in E. cbv [negb]. subst nw.
      pose proof (Z.div_mod (Z.of_nat w) b). lia. }
  destruct (@map_opt_forall2 _ _
              (rebin_frame b (nh * b) (nw * b) nh nw)
              (binned (Z.to_nat b) (Z.to_nat nh) (Z.to_nat nw))
              (d0 :: rest))
    as (new & Hnew & Rnew).
  { intros a Hin. rewrite Forall_forall in Hf.
    apply (rebin_frame_blocks b h w a (Hf a Hin)); assumption. }
  exists new. rewrite bind_outcome, Hnew. unfold lift_opt, ret at 1.
  split; [reflexivity | exact Rnew].
Qed.

Lemma binning_block_means_run (b : Z) force s h w :
  Forall (is_frame h w) (data (dict_image s)) ->
  Forall (is_frame h w) (data (dict_ob s)) ->
  data (dict_image s) <> [] -> data (dict_ob s) <> [] ->
  (1 <= b)%Z -> (b <= Z.of_nat h)%Z -> (b <= Z.of_nat w)%Z ->
  runs force (flag_bin (exec_process_status s)) ->
  let R := binned (Z.to_nat b) (Z.to_nat (Z.of_nat h / b))
             (Z.to_nat (Z.of_nat w / b)) in
  exists new_sample new_ob,
    binning (BinInt b) force s =
    (Return PyNone,
     set_role Ob (with_data new_ob (dict_ob s))
       (set_role Sample (with_data new_sample (dict_image s))
          (with_status (set_flag_bin (exec_process_status s)) s))) /\
    Forall2 R (data (dict_image s)) new_sample /\
    Forall2 R (data (dict_ob s)) new_ob.
Proof.
  intros Hfs Hfo Hs Ho Hb Hbh Hbw Hrun R. unfold runs in Hrun.
  set (s1 := with_status (set_flag_bin (exec_process_status s)) s).
  destruct (binning_data_blocks b Sample s1 h w Hfs Hs Hb Hbh Hbw)
    as (ns & Es & Fs).
  set (s2 := set_role Sample (with_data ns (get_role Sample s1)) s1) in Es.
  destruct (binning_data_blocks b Ob s2 h w Hfo Ho Hb Hbh Hbw)
    as (no & Eo & Fo).
  exists ns, no. split; [| split; assumption].
  unfold binning. rewrite bind_outcome. unfold np_isnan, ret at 1.
  rewrite bind_outcome. unfold np_int, lift_opt, ret at 1.
  rewrite bind_outcome. unfold get at 1. rewrite Hrun.
  rewrite bind_outcome. unfold modify at 1. fold s1.
  rewrite (is_empty_false Hs), (is_empty_false Ho).
  rewrite bind_outcome, Es, bind_outcome, Eo. reflexivity.
Qed.

(** X10: a [binning] by an integer [b] with [1 <= b <= h, w] that runs on
    non-empty stacks of [h x w] frames returns and replaces every sample
    and ob frame, in order, by its [(h/b) x (w/b)] frame of block means:
    the value at [(i, k)] is the mean over the [b] rows of the block of
    the mean of each row, rows and columns beyond the last complete
    block being dropped. *)
Theorem binning_takes_block_means (b : Z) force s h w :
  Forall (is_frame h w) (data (dict_image s)) ->
  Forall (is_frame h w) (data (dict_ob s)) ->
  data (dict_image s) <> [] -> data (dict_ob s) <> [] ->
  (1 <= b)%Z -> (b <= Z.of_nat h)%Z -> (b <= Z.of_nat w)%Z ->
  runs force (flag_bin (exec_process_status s)) ->
  let s' := snd (binning (BinInt b) force s) in
  let R := binned (Z.to_nat b) (Z.to_nat (Z.of_nat h / b))
             (Z.to_nat (Z.of_nat w / b)) in
  fst (binning (BinInt b) force s) = Return PyNone /\
  Forall2 R (data (dict_image s)) (data (dict_image s')) /\
  Forall2 R (data (dict_ob s)) (data (dict_ob s')).
Proof.
  intros Hfs Hfo Hs Ho Hb Hbh Hbw Hrun s' R. subst s'.
  destruct (binning_block_means_run b force s h w Hfs Hfo Hs Ho Hb Hbh Hbw Hrun)
    as (ns & no & E & Fs & Fo).
  rewrite E. cbn [fst snd]. split; [reflexivity |].
  split; [exact Fs | exact Fo].
Qed.

(** The statement above on 2x2 frames binned by 2. *)
Lemma binning_takes_block_means_witness :
  fst (binning (BinInt 2) false Demo.square_pair) = Return PyNone.
Proof.
  assert (fr : is_frame 2 2 (A2 [[Fin 1; Fin 2]; [Fin 3; Fin 4]])).
  { exists [[Fin 1; Fin 2]; [Fin 3; Fin 4]]. split; [reflexivity |].
    split; [reflexivity | repeat constructor]. }
  refine (proj1 (binning_takes_block_means 2%Z false Demo.square_pair 2 2
                   (Forall_cons _ fr (Forall_nil _))
                   (Forall_cons _ fr (Forall_nil _)) _ _ _ _ _ eq_refl)).
  - discriminate.
  - discriminate.
  - lia.
  - simpl; lia.
  - simpl; lia.
Defined.

(* ================================================================== *)
(** * Dark-field correction with a single dark-field frame *)
(* ================================================================== *)















(* ================================================================== *)
(** * Loading a folder *)
(* ================================================================== *)

Lemma supported_decodes fs file :
  supported_extension file = true -> decodes_to fs file (decoded fs file).
Proof.
  unfold supported_extension, decodes_to, decoded. intro H.
  destruct (endswith (lower file) ".fits"); [left; auto |].
  destruct (endswith_any (lower file) [".tiff"; ".tif"]);
    [right; left; auto |].
  right; right. simpl in H. auto.
Qed.

Lemma load_file_same_shape fs file t s h w :
  is_file fs file = true -> supported_extension file = true ->
  List.length (decoded fs file) = h ->
  List.length (hd [] (decoded fs file)) = w ->
  shape_unset_or h w (get_role t s) ->
  let s' := snd (load_file fs file t s) in
  fst (load_file fs file t s) = Return tt /\
  data (get_role t s') = (data (get_role t s) ++ [A2 (decoded fs file)])%list /\
  file_name (get_role t s') = (file_name (get_role t s) ++ [file])%list /\
  shape (get_role t s') = {| width := Some w; height := Some h |} /\
  (forall t', t' <> t -> get_role t' s' = get_role t' s) /\
  exec_process_status s' = exec_process_status s.
Proof.
  intros Hf Hx Hh Hw Hsh s'. subst s'.
  rewrite (load_file_decoded fs file t s _ Hf (supported_decodes fs file Hx)).
  rewrite save_or_check_shape_frame.
  assert (E : shape (get_role t (appended t (A2 (decoded fs file)) file s))
              = shape (get_role t s)) by (destruct t; reflexivity).
  rewrite E, Hh, Hw.
  destruct Hsh as [Hn | Hs].
  - rewrite Hn. cbn [fst snd].
    repeat split; try (destruct t; reflexivity).
    intros t' Ht. destruct t, t'; try congruence; reflexivity.
  - rewrite Hs. cbn [height width]. rewrite !Nat.eqb_refl. cbn [negb orb fst snd].
    repeat split; try (destruct t; reflexivity).
    + rewrite E. exact Hs.
    + intros t' Ht. destruct t, t'; try congruence; reflexivity.
Qed.

Lemma load_folder_run fs folder t h w images :
  (forall i, In i images ->
     is_file fs (path_join folder i) = true /\
     supported_extension (path_join folder i) = true /\
     List.length (decoded fs (path_join folder i)) = h /\
     List.length (hd [] (decoded fs (path_join folder i))) = w) ->
  forall s,
    shape_unset_or h w (get_role t s) ->
    let c := for_each images
               (fun _image => load_file fs (path_join folder _image) t) in
    fst (c s) = Return tt /\
    data (get_role t (snd (c s)))
    = (data (get_role t s)
       ++ map (fun i => A2 (decoded fs (path_join folder i))) images)%list /\
    file_name (get_role t (snd (c s)))
    = (file_name (get_role t s) ++ map (path_join folder) images)%list /\
    shape_unset_or h w (get_role t (snd (c s))) /\
    (images <> [] ->
     shape (get_role t (snd (c s)))
     = {| width := Some w; height := Some h |}) /\
    (forall t', t' <> t -> get_role t' (snd (c s)) = get_role t' s) /\
    exec_process_status (snd (c s)) = exec_process_status s.
Proof.
  induction images as [| i images IH]; intros Hall s Hsh c; subst c.
  - cbn [for_each map]. unfold ret. cbn [fst snd]. rewrite !app_nil_r.
    repeat split; try assumption; congruence.
  - destruct (Hall i (or_introl eq_refl)) as (Hf & Hx & Hh & Hw).
    destruct (load_file_same_shape fs (path_join folder i) t s h w
                Hf Hx Hh Hw Hsh) as (R1 & D1 & N1 & S1 & O1 & P1).
    cbn [for_each map]. rewrite bind_outcome.
    destruct (load_file fs (path_join folder i) t s) as [o1 s1] eqn:E1.
    cbn [fst snd] in *. subst o1.
    destruct (IH (fun j Hj => Hall j (or_intror Hj)) s1 (or_intror S1))
      as (R2 & D2 & N2 & S2 & S2' & O2 & P2).
    split; [exact R2 |].
    split; [rewrite D2, D1, <- app_assoc; reflexivity |].
    split; [rewrite N2, N1, <- app_assoc; reflexivity |].
    split; [exact S2 |].
    split.
    + intros _. destruct images as [| j images'].
      * cbn [for_each]. unfold ret. cbn [snd]. exact S1.
      * apply S2'. discriminate.
    + split.
      * intros t' Ht. rewrite (O2 t' Ht). apply (O1 t' Ht).
      * rewrite P2. exact P1.
Qed.

(** X13: [load] of a folder reads its images in the order the listing
    gives them.  On an instance no stage has run on, with no single file
    named, a non-empty folder name, and every listed image (joined to the
    folder name) an existing file with a supported extension that decodes
    to a frame of [h] rows and [w] columns, where the role has no shape
    yet or the shape [h x w]: the call returns, the decoded frames and
    the joined paths are appended to the role in listing order, the other
    roles and the flags stay as they are. *)
Theorem load_reads_folder_in_order fs folder t s h w :
  any_stage_run s = false -> folder <> ""%string ->
  (forall i, In i (get_sorted_list_images fs folder) ->
     is_file fs (path_join folder i) = true /\
     supported_extension (path_join folder i) = true /\
     List.length (decoded fs (path_join folder i)) = h /\
     List.length (hd [] (decoded fs (path_join folder i))) = w) ->
  shape_unset_or h w (get_role t s) ->
  let images := get_sorted_list_images fs folder in
  let s' := snd (load fs "" folder t s) in
  fst (load fs "" folder t s) = Return tt /\
  data (get_role t s')
  = (data (get_role t s)
     ++ map (fun i => A2 (decoded fs (path_join folder i))) images)%list /\
  file_name (get_role t s')
  = (file_name (get_role t s) ++ map (path_join folder) images)%list /\
  (images <> [] ->
   shape (get_role t s') = {| width := Some w; height := Some h |}) /\
  (forall t', t' <> t -> get_role t' s' = get_role t' s) /\
  exec_process_status s' = exec_process_status s.
Proof.
  intros Hrun Hfolder Hall Hsh images s'. subst s' images.
  assert (Hne : String.eqb folder "" = false)
    by (apply String.eqb_neq; exact Hfolder).
  assert (E : load fs "" folder t s
              = for_each (get_sorted_list_images fs folder)
                  (fun _image => load_file fs (path_join folder _image) t) s).
  { unfold load. rewrite bind_outcome. unfold get at 1.
    unfold any_stage_run in Hrun. rewrite Hrun.
    rewrite bind_outcome. cbn [String.eqb negb when]. unfold ret at 1.
    rewrite Hne. reflexivity. }
  rewrite E.
  destruct (load_folder_run fs folder t h w _ Hall s Hsh)
    as (R & D & N & _ & S & O & P).
  repeat split; assumption.
Qed.

(** The statement above on a folder of two 1x2 images read into a fresh
    instance. *)
Lemma load_reads_folder_in_order_witness :
  data (dict_image (snd (load Demo.folder_fs "" "run" Sample init)))
  = [A2 [[Fin 1; Fin 2]]; A2 [[Fin 3; Fin 4]]] /\
  file_name (dict_image (snd (load Demo.folder_fs "" "run" Sample init)))
  = ["run/0001.tif"; "run/0002.tif"]%string.
Proof.
  assert (Hall : forall i,
            In i (get_sorted_list_images Demo.folder_fs "run") ->
            is_file Demo.folder_fs (path_join "run" i) = true /\
            supported_extension (path_join "run" i) = true /\
            List.length (decoded Demo.folder_fs (path_join "run" i)) = 1 /\
            List.length (hd [] (decoded Demo.folder_fs (path_join "run" i)))
            = 2).
  { intros i [<- | [<- | []]]; repeat split; reflexivity. }
  pose proof (load_reads_folder_in_order Demo.folder_fs "run" Sample init
                1 2 eq_refl ltac:(discriminate) Hall (or_introl eq_refl))
    as H.
  split; [exact (proj1 (proj2 H)) | exact (proj1 (proj2 (proj2 H)))].
Defined.

(* ================================================================== *)
(** * The interferometry maps *)
(* ================================================================== *)

Lemma create_interferometry_images_frame inv p :
  keeps (fun s => (dict_image s, dict_ob s, dict_df s, exec_process_status s))
    (create_interferometry_images inv p).
Proof.
  assert (Hst : forall f v,
            keeps (fun s => (dict_image s, dict_ob s, dict_df s,
                             exec_process_status s)) (store f v)).
  { intros f v s. reflexivity. }
  unfold create_interferometry_images.
  apply keeps_bind; [| intros r1].
  { intro s. rewrite reduction_matrix_keeps_state. reflexivity. }
  apply keeps_bind; [| intros r2].
  { intro s. rewrite reduction_matrix_keeps_state. reflexivity. }
  unfold derive_maps.
  repeat first [ apply keeps_bind; [| intros ?]
               | apply Hst
               | keeps_step ].
Qed.

(** X14: [create_interferometry_images] reads the stacks and writes
    nothing but the interferometry maps: the sample, ob and dark-field
    records and all five stage flags are exactly as before, whether the
    call returns or raises and whatever the matrix inversion answers (so
    the call sets no flag, and a later [load] is not refused because of
    it).  With no sample frame loaded it raises the unpacking error and
    leaves the whole instance as it was. *)
Theorem create_interferometry_images_only_writes_maps inv p s :
  let s' := snd (create_interferometry_images inv p s) in
  dict_image s' = dict_image s /\ dict_ob s' = dict_ob s /\
  dict_df s' = dict_df s /\
  exec_process_status s' = exec_process_status s /\
  any_stage_run s' = any_stage_run s /\
  (data (dict_image s) = [] ->
   create_interferometry_images inv p s = (Raise NumpyValueError, s)).
Proof.
  intros s'. subst s'.
  pose proof (create_interferometry_images_frame inv p s) as K.
  cbv beta in K. injection K as K1 K2 K3 K4.
  repeat split; try assumption.
  - unfold any_stage_run. rewrite K4. reflexivity.
  - intro He. unfold create_interferometry_images.
    rewrite bind_outcome. unfold _create_reduction_matrix at 1.
    rewrite bind_outcome. unfold get at 1. rewrite bind_outcome.
    change (data (get_role Sample s)) with (data (dict_image s)).
    rewrite He. reflexivity.
Qed.

(** The statement above on a fresh instance. *)
Lemma create_interferometry_images_only_writes_maps_witness :
  create_interferometry_images Demo.unit_inverse (Fin 1) init
  = (Raise NumpyValueError, init).
Proof.
  exact (proj2 (proj2 (proj2 (proj2 (proj2
           (create_interferometry_images_only_writes_maps
              Demo.unit_inverse (Fin 1) init))))) eq_refl).
Defined.

(* ================================================================== *)
(** * Normalization by the mean of a region *)
(* ================================================================== *)

Lemma div_scalar_frame h w a m :
  is_frame h w a ->
  is_frame h w (np_div_scalar a m) /\
  forall y x, y < h -> x < w ->
              pixel y x (np_div_scalar a m) = xdiv (pixel y x a) m.
Proof.
  intros (rows & -> & Hh & Hw). split.
  - exists (map (map (fun v => xdiv v m)) rows).
    split; [reflexivity |]. split; [rewrite length_map; exact Hh |].
    rewrite Forall_map. revert Hw. apply Forall_impl.
    intros r Hr. rewrite length_map. exact Hr.
  - intros y x Hy Hx. cbn [np_div_scalar pixel]. unfold entry.
    rewrite (nth_map_lt (map (fun v => xdiv v m)) rows y [] [])
      by (rewrite Hh; exact Hy).
    apply (nth_map_lt (fun v => xdiv v m) (nth y rows []) x NaN NaN).
    rewrite Forall_forall in Hw. rewrite (Hw (nth y rows []));
      [exact Hx | apply nth_In; rewrite Hh; exact Hy].
Qed.

Lemma divided_frames r h w l :
  Forall (is_frame h w) l ->
  Forall2 (divided_by_roi_mean r h w) l
    (map (fun f => np_div_scalar f (np_mean (roi_window r f))) l).
Proof.
  intro H. induction H as [| a l Ha _ IH]; [constructor |].
  cbn [map]. constructor; [| exact IH].
  exact (div_scalar_frame h w a _ Ha).
Qed.

(** X15: a [normalization] that runs with an ROI lying inside the frames
    ([0 <= x0], [x1 < w], [0 <= y0], [y1 < h]) on non-empty stacks of
    [h x w] frames, with as many sample as ob file names and matching
    stored shapes, returns [True] and divides every value of every
    sample and ob frame by the mean of that same frame over the ROI
    window (rows [y0..y1], columns [x0..x1], both ends included): each
    frame is scaled by its own mean, not by one common value. *)
Theorem normalization_divides_by_roi_mean r force s h w :
  runs force (flag_normalization (exec_process_status s)) ->
  Forall (is_frame h w) (data (dict_image s)) ->
  Forall (is_frame h w) (data (dict_ob s)) ->
  data (dict_image s) <> [] -> data (dict_ob s) <> [] -> 0 < h ->
  List.length (file_name (dict_image s))
  = List.length (file_name (dict_ob s)) ->
  data_loaded_have_matching_shape s = true ->
  (0 <= x0 r)%Z -> (x1 r < Z.of_nat w)%Z ->
  (0 <= y0 r)%Z -> (y1 r < Z.of_nat h)%Z ->
  let s' := snd (normalization (RoiObj r) force s) in
  fst (normalization (RoiObj r) force s) = Return PyTrue /\
  Forall2 (divided_by_roi_mean r h w)
    (data (dict_image s)) (data (dict_image s')) /\
  Forall2 (divided_by_roi_mean r h w)
    (data (dict_ob s)) (data (dict_ob s')).
Proof.
  intros Hrun Hfs Hfo Hs Ho Hpos Hlen Hshape Hx0 Hx1 Hy0 Hy1 s'. subst s'.
  assert (Hex : exists d0 rest, data (dict_image s) = d0 :: rest).
  { destruct (data (dict_image s)) as [| d0 rest]; [congruence | eauto]. }
  destruct Hex as (d0 & rest & Ed).
  assert (Hf0 : is_frame h w d0)
    by (rewrite Ed in Hfs; exact (Forall_inv Hfs)).
  rewrite (normalization_with_roi r force s d0 rest h w Hrun Ed
             (frame_shape Hf0 Hpos) Ho Hlen Hshape).
  assert (Hfit : ((x0 r <? 0) || (x1 r >=? Z.of_nat w)
                  || ((y0 r <? 0) || (y1 r >=? Z.of_nat h)))%Z%bool = false).
  { apply not_true_is_false. rewrite roi_out_of_bounds_iff. lia. }
  rewrite Hfit. cbn [fst snd]. split; [reflexivity |].
  split.
  - cbn [set_role dict_image with_data data].
    apply divided_frames. exact Hfs.
  - cbn [set_role dict_ob with_data data]. apply divided_frames. exact Hfo.
Qed.

(** The statement above on 2x2 frames and the ROI made of the top-left
    pixel. *)
Lemma normalization_divides_by_roi_mean_witness :
  fst (normalization (RoiObj (mkROI 0 0 0 0)) false Demo.square_pair)
  = Return PyTrue.
Proof.
  assert (fr : is_frame 2 2 (A2 [[Fin 1; Fin 2]; [Fin 3; Fin 4]])).
  { exists [[Fin 1; Fin 2]; [Fin 3; Fin 4]]. split; [reflexivity |].
    split; [reflexivity | repeat constructor]. }
  refine (proj1 (normalization_divides_by_roi_mean (mkROI 0 0 0 0) false
                   Demo.square_pair 2 2 eq_refl
                   (Forall_cons _ fr (Forall_nil _))
                   (Forall_cons _ fr (Forall_nil _))
                   _ _ _ eq_refl eq_refl _ _ _ _)).
  - discriminate.
  - discriminate.
  - lia.
  - simpl; lia.
  - simpl; lia.
  - simpl; lia.
  - simpl; lia.
Defined.
